(** * PDF annotation transfer: occurrence location and transfer decisions

    A shallow embedding of [main.py]: the sliding-window fuzzy matcher
    [find_best_fuzzy_match_in_pages], the four-tier locator
    [find_text_occurrence] and the two passes of [transfer_annotations],
    with the PyMuPDF document reduced to what those functions read
    (page count, the words of a page, the exact search of a page) and to
    what they write (the annotations they create, the lines they print). *)

From Stdlib Require Import ZArith QArith Qabs Qround Qminmax List String Ascii Bool Lia.
From stdpp Require Import gmap strings pretty.

Local Open Scope string_scope.
Local Open Scope list_scope.
Local Open Scope Z_scope.

(** ** Python strings *)

Module PyStr.

(** [str.isspace] on the code points below 256. *)
Definition is_space (c : ascii) : bool :=
  let n := nat_of_ascii c in
  ((9 <=? n) && (n <=? 13) || (28 <=? n) && (n <=? 32)
   || (n =? 133) || (n =? 160))%nat.

(** [s.split()]: the maximal runs of non-space characters, in order.
    [cur] is the run being read. *)
Fixpoint split_from (cur : string) (s : string) : list string :=
  match s with
  | EmptyString =>
      match cur with EmptyString => [] | _ => [cur] end
  | String c s' =>
      if is_space c then
        match cur with
        | EmptyString => split_from EmptyString s'
        | _ => cur :: split_from EmptyString s'
        end
      else split_from (cur ++ String c EmptyString)%string s'
  end.

Definition split (s : string) : list string := split_from EmptyString s.

(** [sep.join(l)] *)
Definition join (sep : string) (l : list string) : string :=
  String.concat sep l.

Definition len (s : string) : Z := Z.of_nat (String.length s).

Fixpoint lstrip (s : string) : string :=
  match s with
  | String c s' => if is_space c then lstrip s' else s
  | EmptyString => EmptyString
  end.

Fixpoint rstrip (s : string) : string :=
  match s with
  | EmptyString => EmptyString
  | String c s' =>
      match rstrip s' with
      | EmptyString => if is_space c then EmptyString else String c EmptyString
      | r => String c r
      end
  end.

(** [s.strip()] *)
Definition strip (s : string) : string := rstrip (lstrip s).

(** [" ".join(s.split())], the whitespace normalisation used twice in
    [main.py]. *)
Definition normalize (s : string) : string := join " " (split s).

(** Truth value of a string: [if not s] holds for the empty string. *)
Definition truthy (s : string) : bool :=
  match s with EmptyString => false | _ => true end.

(** [s[:n]] *)
Definition prefix (n : nat) (s : string) : string := String.substring 0 n s.

End PyStr.

(** ** [Levenshtein.distance]

    The unit-cost edit distance (insertion, deletion, substitution) of
    the [Levenshtein] package, computed row by row. *)

Module Levenshtein.

(** One cell to the right: [diag] and [up] come from the previous row,
    [left] from the row being built. *)
Fixpoint row_from (c : ascii) (t : string) (diag : nat) (prev : list nat)
    (left : nat) : list nat :=
  match t, prev with
  | String b t', up :: prev' =>
      let cost := if Ascii.eqb c b then O else 1%nat in
      let v := Nat.min (Nat.min (up + 1) (left + 1)) (diag + cost) in
      v :: row_from c t' up prev' v
  | _, _ => []
  end.

Definition next_row (t : string) (prev : list nat) (c : ascii) : list nat :=
  match prev with
  | d0 :: rest => (d0 + 1)%nat :: row_from c t d0 rest (d0 + 1)%nat
  | [] => []
  end.

Fixpoint rows (s t : string) (row : list nat) : list nat :=
  match s with
  | EmptyString => row
  | String c s' => rows s' t (next_row t row c)
  end.

Definition distance (s t : string) : nat :=
  List.last (rows s t (seq 0 (S (String.length t)))) O.

End Levenshtein.

(** ** Exceptions and Python floats *)

Inductive exn : Type :=
  | OverflowError   (* int() of an infinity *)
  | ValueError      (* int() of a NaN; load_page outside the document *)
  | AttributeError. (* attribute access on None *)

Inductive result (A : Type) : Type :=
  | Ok (a : A)
  | Raise (e : exn).
Arguments Ok {A} a.
Arguments Raise {A} e.

#[global] Instance result_ret : MRet result := fun _ a => Ok a.
#[global] Instance result_bind : MBind result := fun _ _ f m =>
  match m with
  | Ok a => f a
  | Raise e => Raise e
  end.

Definition raises {A} (m : result A) : bool :=
  match m with Ok _ => false | Raise _ => true end.

Module PyFloat.

(** A Python float: a finite value, an infinity or a NaN.  Finite
    values are kept as rationals and arithmetic on them is exact up to
    the binary64 overflow threshold; the rounding of a finite product
    to 53 bits is not modelled. *)
Inductive t : Type :=
  | Fin (q : Q)
  | Inf (negative : bool)
  | NaN.

(** Magnitudes from [2^1024 - 2^970] on round to an infinity. *)
Definition overflow_bound : Z := 2 ^ 1024 - 2 ^ 970.

Definition overflows (q : Q) : bool :=
  Qle_bool (inject_Z overflow_bound) (Qabs q).

Definition is_neg (q : Q) : bool := (Qnum q <? 0)%Z.

(** [n * x] for a Python int [n] and a float [x]. *)
Definition mul_int (n : Z) (x : t) : t :=
  match x with
  | Fin q =>
      let p := (inject_Z n * q)%Q in
      if overflows p then Inf (is_neg p) else Fin p
  | Inf s => if (n =? 0)%Z then NaN else Inf (xorb s (n <? 0)%Z)
  | NaN => NaN
  end.

(** [int(x)]: truncation toward zero; raises on infinities and NaN. *)
Definition to_int (x : t) : result Z :=
  match x with
  | Fin q => Ok (Z.quot (Qnum q) (Z.pos (Qden q)))
  | Inf _ => Raise OverflowError
  | NaN => Raise ValueError
  end.


(** [x <= y]; every comparison with a NaN is false. *)
Definition le (x y : t) : bool :=
  match x, y with
  | NaN, _ | _, NaN => false
  | Inf true, _ => true
  | _, Inf false => true
  | Inf false, _ => false
  | _, Inf true => false
  | Fin p, Fin q => Qle_bool p q
  end.

End PyFloat.

(** ** The document model *)

Record Point := mkPoint { px : Q; py : Q }.
Record Rect := mkRect { x0 : Q; y0 : Q; x1 : Q; y1 : Q }.
Record Quad := mkQuad { ul : Point; ur : Point; ll : Point; lr : Point }.

(** [fitz.Rect(r).quad] *)
Definition rect_quad (r : Rect) : Quad :=
  {| ul := mkPoint (x0 r) (y0 r); ur := mkPoint (x1 r) (y0 r);
     ll := mkPoint (x0 r) (y1 r); lr := mkPoint (x1 r) (y1 r) |}.

(** An entry of [page.get_text("words")]: [w[:4]] and [w[4]]. *)
Record Word := mkWord { w_rect : Rect; w_text : string }.

(** What a page of the target document answers: its words and its exact
    search ([page.search_for(text, quads=True)], empty when absent). *)
Record PageContent := mkPageContent {
  get_words : list Word;
  search_for : string -> list Quad
}.

Record Page := mkPage { number : Z; content : PageContent }.

Definition Document := list PageContent.

Definition page_count (doc : Document) : Z := Z.of_nat (length doc).

(** [doc.load_page(idx)]: an index from [page_count] on is refused, a
    negative one counts from the end. *)
Definition load_page (doc : Document) (idx : Z) : result Page :=
  if page_count doc <=? idx then Raise ValueError
  else
    let i := if idx <? 0 then idx mod page_count doc else idx in
    match nth_error doc (Z.to_nat i) with
    | Some c => Ok (mkPage i c)
    | None => Raise ValueError
    end.

(** [list(range(lo, hi))] *)
Definition range (lo hi : Z) : list Z :=
  map (fun k => lo + Z.of_nat k) (seq 0 (Z.to_nat (hi - lo))).

(** ** The fuzzy matcher *)

(** [[fitz.Rect(w[:4]).quad for w in ws]] *)
Definition word_quads (ws : list Word) : list Quad :=
  map (fun w => rect_quad (w_rect w)) ws.

(** The dictionary [best_match]; a distance of [None] is [float('inf')]. *)
Record BestMatch := mkBest {
  bm_page : option Page;
  bm_quads : list Quad;
  bm_distance : option nat
}.

Definition best_init : BestMatch := mkBest None [] None.

(** [distance < best_match['distance']] *)
Definition improves (d : nat) (best : BestMatch) : bool :=
  match bm_distance best with
  | None => true
  | Some b => (d <? b)%nat
  end.

(** [best_match['distance'] <= allowed_distance] *)
Definition within (best : BestMatch) (allowed : Z) : bool :=
  match bm_distance best with
  | None => false
  | Some b => Z.of_nat b <=? allowed
  end.

(** [page_words[i : i + n_words]] *)
Definition window (page_words : list Word) (i n_words : nat) : list Word :=
  firstn n_words (skipn i page_words).

(** The body of the inner loop, for the window that starts at [i]. *)
Definition try_window (text_to_find : string) (n_words : nat) (page : Page)
    (best : BestMatch) (i : nat) : BestMatch :=
  let window_words_info := window (get_words (content page)) i n_words in
  let candidate_text := PyStr.join " " (map w_text window_words_info) in
  let distance := Levenshtein.distance text_to_find candidate_text in
  if improves distance best then
    mkBest (Some page) (word_quads window_words_info) (Some distance)
  else best.

(** The body of the outer loop, for a loaded page. *)
Definition scan_page (text_to_find : string) (n_words : nat) (page : Page)
    (best : BestMatch) : BestMatch :=
  let page_words := get_words (content page) in
  if (length page_words <? n_words)%nat then best
  else
    fold_left (try_window text_to_find n_words page)
              (seq 0 (length page_words - n_words + 1)) best.

Fixpoint scan_pages (doc : Document) (text_to_find : string) (n_words : nat)
    (page_indices : list Z) (best : BestMatch) : result BestMatch :=
  match page_indices with
  | [] => Ok best
  | page_idx :: rest =>
      page ← load_page doc page_idx;
      scan_pages doc text_to_find n_words rest
                 (scan_page text_to_find n_words page best)
  end.

(** [int(len(text_to_find) * threshold_ratio) + base_allowance] *)
Definition allowed_distance (text_to_find : string) (threshold_ratio : PyFloat.t)
    (base_allowance : Z) : result Z :=
  n ← PyFloat.to_int (PyFloat.mul_int (PyStr.len text_to_find) threshold_ratio);
  Ok (n + base_allowance).

(** The pair a call returns: [(None, None)] or [(page, quads)]. *)
Definition FuzzyResult : Type := option Page * option (list Quad).

Definition find_best_fuzzy_match_in_pages (doc : Document) (text_to_find : string)
    (threshold_ratio : PyFloat.t) (base_allowance : Z) (page_indices : list Z)
    : result FuzzyResult :=
  let words_to_find := PyStr.split text_to_find in
  let n_words := length words_to_find in
  if (n_words =? 0)%nat then Ok (None, None)
  else
    allowed ← allowed_distance text_to_find threshold_ratio base_allowance;
    best_match ← scan_pages doc text_to_find n_words page_indices best_init;
    if within best_match allowed then
      Ok (bm_page best_match, Some (bm_quads best_match))
    else Ok (None, None).

(** A call returned a page, not [(None, None)] and not an exception. *)
Definition returns_match (r : result FuzzyResult) : bool :=
  match r with
  | Ok (Some _, _) => true
  | _ => false
  end.

(** ** The four-tier locator *)

(** The module-level constants of [main.py]. *)
Record Config := mkConfig {
  LOCAL_PAGE_WINDOW : Z;
  MAX_PAGE_DISTANCE : Z;
  FUZZY_MAX_PAGE_DISTANCE : Z
}.

Definition source_config : Config := mkConfig 5 5 5.

Inductive MatchType := exact | fuzzy | none.

#[global] Instance MatchType_eq_dec : EqDecision MatchType.
Proof. solve_decision. Defined.

(** The calls a search makes on its collaborators, in order: the exact
    search of one page and a run of the fuzzy matcher over a page list. *)
Inductive Call :=
  | CallSearchFor (page_idx : Z) (text : string)
  | CallFuzzy (text : string) (page_indices : list Z).

Definition is_fuzzy_call (c : Call) : bool :=
  match c with CallFuzzy _ _ => true | CallSearchFor _ _ => false end.

(** A computation that may raise, together with the calls it made. *)
Definition Traced (A : Type) : Type := list Call * result A.

#[global] Instance traced_ret : MRet Traced := fun _ a => ([], Ok a).
#[global] Instance traced_bind : MBind Traced := fun _ _ f m =>
  match m with
  | (l, Ok a) => let '(l', r) := f a in (l ++ l', r)
  | (l, Raise e) => (l, Raise e)
  end.

Definition tell (c : Call) : Traced unit := ([c], Ok tt).
Definition lift {A} (r : result A) : Traced A := ([], r).

Definition calls {A} (m : Traced A) : list Call := fst m.
Definition outcome {A} (m : Traced A) : result A := snd m.

(** Truth value of a list and of an optional object. *)
Definition list_truthy {A} (l : list A) : bool :=
  match l with [] => false | _ => true end.
Definition opt_truthy {A} (truth : A -> bool) (o : option A) : bool :=
  match o with None => false | Some a => truth a end.

(** [for page_idx in page_indices: ... if quads: return page, quads, "exact"];
    [None] when the loop runs to its end. *)
Fixpoint exact_search (doc : Document) (search_text : string)
    (page_indices : list Z) : Traced (option (Page * list Quad)) :=
  match page_indices with
  | [] => mret None
  | page_idx :: rest =>
      page ← lift (load_page doc page_idx);
      _ ← tell (CallSearchFor page_idx search_text);
      let quads := search_for (content page) search_text in
      if list_truthy quads then mret (Some (page, quads))
      else exact_search doc search_text rest
  end.

Definition fuzzy_search (doc : Document) (search_text : string)
    (fuzzy_ratio : PyFloat.t) (fuzzy_allowance : Z) (page_indices : list Z)
    : Traced FuzzyResult :=
  _ ← tell (CallFuzzy search_text page_indices);
  lift (find_best_fuzzy_match_in_pages doc search_text fuzzy_ratio
          fuzzy_allowance page_indices).

(** [if page and quads] *)
Definition page_and_quads (r : FuzzyResult) : bool :=
  opt_truthy (fun _ => true) (fst r) && opt_truthy list_truthy (snd r).

Definition Located : Type := option Page * option (list Quad) * MatchType.

Definition local_page_indices (cfg : Config) (doc : Document)
    (old_page_number : Z) : list Z :=
  let start_page_idx := Z.max 0 (old_page_number - LOCAL_PAGE_WINDOW cfg) in
  let end_page_idx :=
    Z.min (page_count doc) (old_page_number + LOCAL_PAGE_WINDOW cfg + 1) in
  range start_page_idx end_page_idx.

Definition all_page_indices (doc : Document) : list Z :=
  range 0 (page_count doc).

Definition find_text_occurrence (cfg : Config) (doc : Document) (text : string)
    (fuzzy_ratio : PyFloat.t) (fuzzy_allowance : Z) (old_page_number : Z)
    : Traced Located :=
  let search_text := PyStr.normalize text in
  if negb (PyStr.truthy search_text) then mret (None, None, none)
  else
    let local := local_page_indices cfg doc old_page_number in
    let all := all_page_indices doc in
    (* 1. local exact *)
    found ← exact_search doc search_text local;
    match found with
    | Some (page, quads) => mret (Some page, Some quads, exact)
    | None =>
    (* 2. full-document exact *)
    found ← exact_search doc search_text all;
    match found with
    | Some (page, quads) => mret (Some page, Some quads, exact)
    | None =>
    (* 3. local fuzzy *)
    r ← fuzzy_search doc search_text fuzzy_ratio fuzzy_allowance local;
    if page_and_quads r then mret (fst r, snd r, fuzzy)
    else
    (* 4. full-document fuzzy *)
    r ← fuzzy_search doc search_text fuzzy_ratio fuzzy_allowance all;
    if page_and_quads r then mret (fst r, snd r, fuzzy)
    else mret (None, None, none)
    end
    end.

(** ** The transfer session *)

(** [fitz.PDF_ANNOT_*] *)
Definition PDF_ANNOT_TEXT : Z := 0.
Definition PDF_ANNOT_HIGHLIGHT : Z := 8.
Definition PDF_ANNOT_UNDERLINE : Z := 9.
Definition PDF_ANNOT_SQUIGGLY : Z := 10.

Definition markup_types : list Z :=
  [PDF_ANNOT_HIGHLIGHT; PDF_ANNOT_UNDERLINE; PDF_ANNOT_SQUIGGLY].

Definition Color : Type := list Q.

(** An annotation of the old document.  [covered_text] is what
    [old_page.get_text("text", clip=annot.rect)] returns for it. *)
Record Annot := mkAnnot {
  a_type : Z;               (* annot.type[0] *)
  xref : Z;
  irt_xref : Z;
  covered_text : string;
  info : gmap string string;
  colors : gmap string Color
}.

(** The annotations of an old page, in the order of [old_page.annots()];
    the page number is the position in the document. *)
Definition OldPage : Type := list Annot.
Definition OldDocument : Type := list OldPage.

(** An annotation created on the output document, as it stands after
    [update()].  A markup has quads, a sticky note has a point; a stroke
    of [None] is the colour the library gives by default. *)
Record NewAnnot := mkNewAnnot {
  na_type : Z;
  na_page : Z;
  na_quads : list Quad;
  na_point : option Point;
  na_stroke : option Color;
  na_content : string;
  na_title : string
}.

Definition set_colors (stroke : Color) (a : NewAnnot) : NewAnnot :=
  mkNewAnnot (na_type a) (na_page a) (na_quads a) (na_point a) (Some stroke)
             (na_content a) (na_title a).

Definition set_info (content title : string) (a : NewAnnot) : NewAnnot :=
  mkNewAnnot (na_type a) (na_page a) (na_quads a) (na_point a) (na_stroke a)
             content title.

(** The lines printed for single annotations.  Page numbers are the
    1-based ones of the messages, texts are cut as the messages cut them. *)
Inductive Line :=
  | FailEmpty (page : Z)
  | FailTooFar (page : Z) (match_type : MatchType) (new_page : Z) (text : string)
  | FailFuzzyTooFar (page new_page : Z) (text : string)
  | OkExact (page new_page : Z) (text : string)
  | OkFuzzy (page new_page : Z) (text : string)
  | FailNotFound (page : Z) (text : string)
  | OkReply (new_page : Z) (content : string).

(** The local variables of [transfer_annotations], with the annotations
    added to [output_doc] and the lines printed so far. *)
Record Session := mkSession {
  transferred_count : nat;
  transferred_fuzzy_count : nat;
  failed_count : nat;
  unsupported_count : nat;
  failed_annotations : list (Z * string);
  new_annot_map : gmap Z NewAnnot;
  output_annots : list NewAnnot;
  printed : list Line
}.

Definition session_init : Session := mkSession 0 0 0 0 [] ∅ [] [].

Definition incr_transferred (s : Session) : Session :=
  mkSession (S (transferred_count s)) (transferred_fuzzy_count s)
    (failed_count s) (unsupported_count s) (failed_annotations s)
    (new_annot_map s) (output_annots s) (printed s).

Definition incr_transferred_fuzzy (s : Session) : Session :=
  mkSession (transferred_count s) (S (transferred_fuzzy_count s))
    (failed_count s) (unsupported_count s) (failed_annotations s)
    (new_annot_map s) (output_annots s) (printed s).

Definition incr_failed (s : Session) : Session :=
  mkSession (transferred_count s) (transferred_fuzzy_count s)
    (S (failed_count s)) (unsupported_count s) (failed_annotations s)
    (new_annot_map s) (output_annots s) (printed s).

Definition incr_unsupported (s : Session) : Session :=
  mkSession (transferred_count s) (transferred_fuzzy_count s)
    (failed_count s) (S (unsupported_count s)) (failed_annotations s)
    (new_annot_map s) (output_annots s) (printed s).

(** [failed_annotations.append(record)] *)
Definition append_failed (record : Z * string) (s : Session) : Session :=
  mkSession (transferred_count s) (transferred_fuzzy_count s)
    (failed_count s) (unsupported_count s) (failed_annotations s ++ [record])
    (new_annot_map s) (output_annots s) (printed s).

(** [new_annot_map[key] = a] *)
Definition store_annot (key : Z) (a : NewAnnot) (s : Session) : Session :=
  mkSession (transferred_count s) (transferred_fuzzy_count s)
    (failed_count s) (unsupported_count s) (failed_annotations s)
    (<[key := a]> (new_annot_map s)) (output_annots s) (printed s).

(** The annotation [a] now stands on the output document. *)
Definition emit_annot (a : NewAnnot) (s : Session) : Session :=
  mkSession (transferred_count s) (transferred_fuzzy_count s)
    (failed_count s) (unsupported_count s) (failed_annotations s)
    (new_annot_map s) (output_annots s ++ [a]) (printed s).

Definition print (l : Line) (s : Session) : Session :=
  mkSession (transferred_count s) (transferred_fuzzy_count s)
    (failed_count s) (unsupported_count s) (failed_annotations s)
    (new_annot_map s) (output_annots s) (printed s ++ [l]).

(** [d.get(key, default)] *)
Definition dict_get (d : gmap string string) (key default : string) : string :=
  match d !! key with Some v => v | None => default end.

(** The [if]/[elif] chain over the three creation calls; [None] when no
    branch is taken. *)
Definition add_markup_annot (annot_type : Z) (new_page : Page)
    (quads : list Quad) : option NewAnnot :=
  if annot_type =? PDF_ANNOT_HIGHLIGHT then
    Some (mkNewAnnot PDF_ANNOT_HIGHLIGHT (number new_page) quads None None "" "")
  else if annot_type =? PDF_ANNOT_UNDERLINE then
    Some (mkNewAnnot PDF_ANNOT_UNDERLINE (number new_page) quads None None "" "")
  else if annot_type =? PDF_ANNOT_SQUIGGLY then
    Some (mkNewAnnot PDF_ANNOT_SQUIGGLY (number new_page) quads None None "" "")
  else None.

Definition newline : string := String (ascii_of_nat 10) EmptyString.

(** The content of a fuzzy transfer: the disclosure note, then the old
    content when there is one. *)
Definition fuzzy_content (page_distance : Z) (target_text old_content : string)
    : string :=
  let fuzzy_note :=
    ("[FUZZY MATCH] Page distance: " ++ pretty page_distance
       ++ ". Original text:" ++ newline ++ "'" ++ target_text ++ "'")%string in
  if PyStr.truthy old_content
  then (fuzzy_note ++ newline ++ newline ++ old_content)%string
  else fuzzy_note.

(** The branch [match_type == "exact"]: the stroke colour of the old
    annotation when it has one, its content and its title. *)
Definition exact_annot (annot : Annot) (new_annot : NewAnnot) : NewAnnot :=
  let old_info := info annot in
  let new_annot :=
    match colors annot !! "stroke" with
    | Some stroke =>
        if list_truthy stroke then set_colors stroke new_annot else new_annot
    | None => new_annot
    end in
  set_info (dict_get old_info "content" "") (dict_get old_info "title" "Note")
           new_annot.

(** The branch [match_type == "fuzzy"]: the disclosure note before the
    old content, and the old title or "Note (Fuzzy)". *)
Definition fuzzy_annot (annot : Annot) (page_distance : Z)
    (target_text : string) (new_annot : NewAnnot) : NewAnnot :=
  let old_info := info annot in
  let old_content := dict_get old_info "content" "" in
  let new_content := fuzzy_content page_distance target_text old_content in
  set_info new_content (dict_get old_info "title" "Note (Fuzzy)") new_annot.

(** [obj.attr] on a value that may be [None]. *)
Definition deref {A} (o : option A) : result A :=
  match o with Some a => Ok a | None => Raise AttributeError end.

(** The body of the loops of pass 1, for one annotation of the old page
    numbered [old_page_number]. *)
Definition transfer_markup (cfg : Config) (output_doc : Document)
    (fuzzy_ratio : PyFloat.t) (fuzzy_allowance : Z) (old_page_number : Z)
    (annot : Annot) (s : Session) : result Session :=
  if negb (bool_decide (a_type annot ∈ markup_types)) then
    Ok (incr_unsupported s)
  else
    let target_text := PyStr.strip (covered_text annot) in
    let target_text := PyStr.normalize target_text in
    if negb (PyStr.truthy target_text) then
      Ok (incr_failed
            (append_failed (old_page_number + 1, "Empty Annotation Text")
               (print (FailEmpty (old_page_number + 1)) s)))
    else
      '(new_page, quads, match_type) ←
        outcome (find_text_occurrence cfg output_doc target_text fuzzy_ratio
                   fuzzy_allowance old_page_number);
      if negb (bool_decide (match_type = none)) then
        new_page ← deref new_page;
        let page_distance := Z.abs (number new_page - old_page_number) in
        if page_distance >? MAX_PAGE_DISTANCE cfg then
          Ok (incr_failed
                (append_failed (old_page_number + 1, target_text)
                   (print (FailTooFar (old_page_number + 1) match_type
                             (number new_page + 1) (PyStr.prefix 40 target_text))
                      s)))
        else if bool_decide (match_type = fuzzy)
                && (page_distance >? FUZZY_MAX_PAGE_DISTANCE cfg) then
          Ok (incr_failed
                (append_failed (old_page_number + 1, target_text)
                   (print (FailFuzzyTooFar (old_page_number + 1)
                             (number new_page + 1) (PyStr.prefix 40 target_text))
                      s)))
        else
          quads ← deref quads;
          match add_markup_annot (a_type annot) new_page quads with
          | Some new_annot =>
              let '(new_annot, s) :=
                match match_type with
                | exact =>
                    (exact_annot annot new_annot,
                     print (OkExact (old_page_number + 1) (number new_page + 1)
                              (PyStr.prefix 40 target_text))
                       (incr_transferred s))
                | fuzzy =>
                    (fuzzy_annot annot page_distance target_text new_annot,
                     print (OkFuzzy (old_page_number + 1) (number new_page + 1)
                              (PyStr.prefix 40 target_text))
                       (incr_transferred_fuzzy s))
                | none => (new_annot, s)
                end in
              Ok (store_annot (xref annot) new_annot (emit_annot new_annot s))
          | None => Ok s
          end
      else
        Ok (print (FailNotFound (old_page_number + 1)
                     (PyStr.prefix 40 target_text))
              (incr_failed
                 (append_failed (old_page_number + 1, target_text) s))).

(** [parent_annot.rect] of a markup: the box around its quads. *)
Definition quad_points (q : Quad) : list Point := [ul q; ur q; ll q; lr q].

Definition bounding_rect (quads : list Quad) : Rect :=
  match flat_map quad_points quads with
  | [] => mkRect 0 0 0 0
  | p :: ps =>
      mkRect (fold_left Qmin (map px ps) (px p))
             (fold_left Qmin (map py ps) (py p))
             (fold_left Qmax (map px ps) (px p))
             (fold_left Qmax (map py ps) (py p))
  end.

(** [rect.tr] *)
Definition top_right (r : Rect) : Point := mkPoint (x1 r) (y0 r).

(** The body of the loops of pass 2, for one annotation. *)
Definition transfer_reply (annot : Annot) (s : Session) : Session :=
  if a_type annot =? PDF_ANNOT_TEXT then
    match new_annot_map s !! irt_xref annot with
    | Some parent_annot =>
        let new_page := na_page parent_annot in
        let old_info := info annot in
        let content := dict_get old_info "content" "Reply" in
        let title := dict_get old_info "title" "Reply" in
        let tr := top_right (bounding_rect (na_quads parent_annot)) in
        let point := mkPoint (px tr + 5)%Q (py tr - 2)%Q in
        let new_note :=
          set_info content title
            (mkNewAnnot PDF_ANNOT_TEXT new_page [] (Some point) None content "") in
        print (OkReply (new_page + 1) (PyStr.prefix 40 content))
          (incr_transferred (emit_annot new_note s))
    | None => incr_unsupported s
    end
  else s.

(** [for annot in old_page.annots()] of pass 1 *)
Fixpoint pass1_page (cfg : Config) (output_doc : Document)
    (fuzzy_ratio : PyFloat.t) (fuzzy_allowance : Z) (old_page_number : Z)
    (annots : list Annot) (s : Session) : result Session :=
  match annots with
  | [] => Ok s
  | annot :: rest =>
      s ← transfer_markup cfg output_doc fuzzy_ratio fuzzy_allowance
            old_page_number annot s;
      pass1_page cfg output_doc fuzzy_ratio fuzzy_allowance old_page_number
                 rest s
  end.

(** [for old_page in old_doc] of pass 1, from the page numbered
    [old_page_number] on. *)
Fixpoint pass1_from (cfg : Config) (output_doc : Document)
    (fuzzy_ratio : PyFloat.t) (fuzzy_allowance : Z) (old_page_number : Z)
    (old_pages : list OldPage) (s : Session) : result Session :=
  match old_pages with
  | [] => Ok s
  | old_page :: rest =>
      s ← pass1_page cfg output_doc fuzzy_ratio fuzzy_allowance
            old_page_number old_page s;
      pass1_from cfg output_doc fuzzy_ratio fuzzy_allowance
                 (old_page_number + 1) rest s
  end.

Definition pass1 (cfg : Config) (output_doc : Document)
    (fuzzy_ratio : PyFloat.t) (fuzzy_allowance : Z) (old_doc : OldDocument)
    (s : Session) : result Session :=
  pass1_from cfg output_doc fuzzy_ratio fuzzy_allowance 0 old_doc s.

(** Pass 2: the same two loops around [transfer_reply]. *)
Definition pass2 (old_doc : OldDocument) (s : Session) : Session :=
  fold_left (fun s old_page => fold_left (fun s annot => transfer_reply annot s)
                                         old_page s)
            old_doc s.

(** [transfer_annotations] between the opening of the two files and the
    final save: the output document starts as a copy of the new one, and
    an exception of pass 1 leaves the function before pass 2. *)
Definition transfer_annotations (cfg : Config) (old_doc : OldDocument)
    (new_doc : Document) (fuzzy_ratio : PyFloat.t) (fuzzy_allowance : Z)
    : result Session :=
  let output_doc := new_doc in
  s ← pass1 cfg output_doc fuzzy_ratio fuzzy_allowance old_doc session_init;
  Ok (pass2 old_doc s).

(** ** A plain text layer

    A page given by its words alone, for concrete documents: the exact
    search answers with the quads of the first run of consecutive words
    that spells the phrase. *)

Definition spells (ws : list Word) (phrase : list string) : bool :=
  bool_decide (map w_text ws = phrase).

Fixpoint first_run (page_words : list Word) (phrase : list string)
    : list Quad :=
  match page_words with
  | [] => []
  | _ :: rest =>
      let w := firstn (length phrase) page_words in
      if spells w phrase then word_quads w else first_run rest phrase
  end.

Definition plain_page (page_words : list Word) : PageContent :=
  mkPageContent page_words
    (fun text =>
       match PyStr.split text with
       | [] => []
       | phrase => first_run page_words phrase
       end).

(** The [k]-th word of a line, on a unit grid. *)
Definition word_at (k : Z) (s : string) : Word :=
  mkWord (mkRect (inject_Z k) 0 (inject_Z (k + 1)) 1) s.

Definition words_of (ss : list string) : list Word :=
  imap (fun k s => word_at (Z.of_nat k) s) ss.

Definition text_page (s : string) : PageContent :=
  plain_page (words_of (PyStr.split s)).

(** A source annotation with empty [info] and [colors]. *)
Definition annot_of (annot_type xref irt_xref : Z) (covered_text : string)
    : Annot :=
  mkAnnot annot_type xref irt_xref covered_text ∅ ∅.

(** ** The candidate windows of a fuzzy search

    The windows the two loops of the matcher visit, as a list in visiting
    order: pages in the order of the caller's list, then window positions
    from the left. *)

Record Candidate := mkCandidate {
  c_page : Page;
  c_start : nat;
  c_words : list Word;
  c_distance : nat
}.

Definition candidate_at (text_to_find : string) (n_words : nat) (page : Page)
    (i : nat) : Candidate :=
  let ws := window (get_words (content page)) i n_words in
  mkCandidate page i ws
    (Levenshtein.distance text_to_find (PyStr.join " " (map w_text ws))).

Definition page_candidates (text_to_find : string) (n_words : nat)
    (page : Page) : list Candidate :=
  let page_words := get_words (content page) in
  if (length page_words <? n_words)%nat then []
  else map (candidate_at text_to_find n_words page)
           (seq 0 (length page_words - n_words + 1)).

Definition candidates (text_to_find : string) (n_words : nat)
    (pages : list Page) : list Candidate :=
  flat_map (page_candidates text_to_find n_words) pages.

(** The pages of an index list, or the exception of the first index
    that cannot be loaded. *)
Fixpoint load_pages (doc : Document) (page_indices : list Z)
    : result (list Page) :=
  match page_indices with
  | [] => Ok []
  | page_idx :: rest =>
      page ← load_page doc page_idx;
      pages ← load_pages doc rest;
      Ok (page :: pages)
  end.

(** The record [best_match] that stands for a candidate. *)
Definition best_of (c : Candidate) : BestMatch :=
  mkBest (Some (c_page c)) (word_quads (c_words c)) (Some (c_distance c)).

(** [c] is the first of the candidates [cs] with the least distance. *)
Definition first_minimum (c : Candidate) (cs : list Candidate) : Prop :=
  ∃ before after,
    cs = before ++ c :: after
    ∧ (∀ x, x ∈ before → (c_distance c < c_distance x)%nat)
    ∧ (∀ x, x ∈ after → (c_distance c ≤ c_distance x)%nat).



(** What one step of the inner loop does with the candidate it reads. *)
Definition absorb (best : BestMatch) (c : Candidate) : BestMatch :=
  if improves (c_distance c) best then best_of c else best.

(** A word: a non-empty string without a space character. *)
Fixpoint spacefree (s : string) : bool :=
  match s with
  | EmptyString => true
  | String c s' => negb (PyStr.is_space c) && spacefree s'
  end.

Definition is_word (w : string) : Prop := w ≠ "" ∧ spacefree w = true.

(** The pages of a document, each with its number. *)
Definition all_pages (doc : Document) : list Page :=
  imap (fun i c => mkPage (Z.of_nat i) c) doc.

(** ** The search order of the specification

    The locator as the specification words it: the local window is the
    set of pages within [LOCAL_PAGE_WINDOW] of the anchor, clamped to the
    document; the four tiers are tried in order and the first success is
    the result. *)

Definition page_hits (doc : Document) (phrase : string) (idx : Z) : bool :=
  match load_page doc idx with
  | Ok page => list_truthy (search_for (content page) phrase)
  | Raise _ => false
  end.

(** The first page of [page_indices] on which the phrase is found. *)
Definition first_exact (doc : Document) (phrase : string)
    (page_indices : list Z) : option (Page * list Quad) :=
  match filter (fun idx => page_hits doc phrase idx = true) page_indices with
  | [] => None
  | idx :: _ =>
      match load_page doc idx with
      | Ok page => Some (page, search_for (content page) phrase)
      | Raise _ => None
      end
  end.

Definition in_local_window (cfg : Config) (anchor idx : Z) : Prop :=
  anchor - LOCAL_PAGE_WINDOW cfg <= idx <= anchor + LOCAL_PAGE_WINDOW cfg.

#[global] Instance in_local_window_dec cfg anchor idx :
  Decision (in_local_window cfg anchor idx).
Proof. unfold in_local_window. apply _. Defined.

Definition local_window (cfg : Config) (doc : Document) (anchor : Z) : list Z :=
  filter (in_local_window cfg anchor) (all_page_indices doc).



(** ** The outcomes of one annotation

    The session after each way pass 1 can leave an annotation, written
    with the updates of the code. *)

(** The text searched for an annotation. *)
Definition target_of (annot : Annot) : string :=
  PyStr.normalize (PyStr.strip (covered_text annot)).

Definition fail_empty (old_page_number : Z) (s : Session) : Session :=
  incr_failed
    (append_failed (old_page_number + 1, "Empty Annotation Text")
       (print (FailEmpty (old_page_number + 1)) s)).

Definition fail_not_found (old_page_number : Z) (target_text : string)
    (s : Session) : Session :=
  incr_failed
    (append_failed (old_page_number + 1, target_text)
       (print (FailNotFound (old_page_number + 1)
                 (PyStr.prefix 40 target_text)) s)).

Definition fail_too_far (old_page_number : Z) (target_text : string)
    (match_type : MatchType) (new_page : Page) (s : Session) : Session :=
  incr_failed
    (append_failed (old_page_number + 1, target_text)
       (print (FailTooFar (old_page_number + 1) match_type
                 (number new_page + 1) (PyStr.prefix 40 target_text)) s)).

Definition fail_fuzzy_too_far (old_page_number : Z) (target_text : string)
    (new_page : Page) (s : Session) : Session :=
  incr_failed
    (append_failed (old_page_number + 1, target_text)
       (print (FailFuzzyTooFar (old_page_number + 1) (number new_page + 1)
                 (PyStr.prefix 40 target_text)) s)).

(** The markup as the creation call returns it. *)
Definition new_markup (annot : Annot) (new_page : Page) (quads : list Quad)
    : NewAnnot :=
  mkNewAnnot (a_type annot) (number new_page) quads None None "" "".

Definition transfer_exact (old_page_number : Z) (annot : Annot)
    (new_page : Page) (quads : list Quad) (s : Session) : Session :=
  let new_annot := exact_annot annot (new_markup annot new_page quads) in
  store_annot (xref annot) new_annot
    (emit_annot new_annot
       (print (OkExact (old_page_number + 1) (number new_page + 1)
                 (PyStr.prefix 40 (target_of annot)))
          (incr_transferred s))).

Definition transfer_fuzzy (old_page_number : Z) (annot : Annot)
    (new_page : Page) (quads : list Quad) (s : Session) : Session :=
  let page_distance := Z.abs (number new_page - old_page_number) in
  let new_annot :=
    fuzzy_annot annot page_distance (target_of annot)
                (new_markup annot new_page quads) in
  store_annot (xref annot) new_annot
    (emit_annot new_annot
       (print (OkFuzzy (old_page_number + 1) (number new_page + 1)
                 (PyStr.prefix 40 (target_of annot)))
          (incr_transferred_fuzzy s))).

(** [abs(new_page.number - old_page_number)] *)
Definition page_distance_of (new_page : Page) (old_page_number : Z) : Z :=
  Z.abs (number new_page - old_page_number).

(** ** The decision for one annotation

    What pass 1 decides for an annotation before it touches the session:
    the transfer policy of the specification, with the tests of the code
    in their order. *)

Inductive Verdict :=
  | VUnsupported
  | VEmpty
  | VNotFound
  | VTooFar (new_page : Page) (match_type : MatchType)
  | VFuzzyTooFar (new_page : Page)
  | VExact (new_page : Page) (quads : list Quad)
  | VFuzzy (new_page : Page) (quads : list Quad).

Definition verdict (cfg : Config) (output_doc : Document)
    (fuzzy_ratio : PyFloat.t) (fuzzy_allowance : Z) (old_page_number : Z)
    (annot : Annot) : result Verdict :=
  if negb (bool_decide (a_type annot ∈ markup_types)) then Ok VUnsupported
  else if negb (PyStr.truthy (target_of annot)) then Ok VEmpty
  else
    '(new_page, quads, match_type) ←
      outcome (find_text_occurrence cfg output_doc (target_of annot)
                 fuzzy_ratio fuzzy_allowance old_page_number);
    if bool_decide (match_type = none) then Ok VNotFound
    else
      new_page ← deref new_page;
      if page_distance_of new_page old_page_number >? MAX_PAGE_DISTANCE cfg
      then Ok (VTooFar new_page match_type)
      else if bool_decide (match_type = fuzzy)
              && (page_distance_of new_page old_page_number
                  >? FUZZY_MAX_PAGE_DISTANCE cfg)
      then Ok (VFuzzyTooFar new_page)
      else
        quads ← deref quads;
        Ok (if bool_decide (match_type = exact) then VExact new_page quads
            else VFuzzy new_page quads).

(** The session after a decision. *)
Definition apply_verdict (old_page_number : Z) (annot : Annot) (v : Verdict)
    (s : Session) : Session :=
  match v with
  | VUnsupported => incr_unsupported s
  | VEmpty => fail_empty old_page_number s
  | VNotFound => fail_not_found old_page_number (target_of annot) s
  | VTooFar new_page match_type =>
      fail_too_far old_page_number (target_of annot) match_type new_page s
  | VFuzzyTooFar new_page =>
      fail_fuzzy_too_far old_page_number (target_of annot) new_page s
  | VExact new_page quads =>
      transfer_exact old_page_number annot new_page quads s
  | VFuzzy new_page quads =>
      transfer_fuzzy old_page_number annot new_page quads s
  end.

(** The annotation a decision creates, if it creates one. *)
Definition created_annot (old_page_number : Z) (annot : Annot) (v : Verdict)
    : option NewAnnot :=
  match v with
  | VExact new_page quads =>
      Some (exact_annot annot (new_markup annot new_page quads))
  | VFuzzy new_page quads =>
      Some (fuzzy_annot annot (page_distance_of new_page old_page_number)
              (target_of annot) (new_markup annot new_page quads))
  | _ => None
  end.

(** The three recoverable failures. *)
Definition is_failure (v : Verdict) : bool :=
  match v with
  | VEmpty | VNotFound | VTooFar _ _ | VFuzzyTooFar _ => true
  | _ => false
  end.

(** The record appended for a failure. *)
Definition failure_record (old_page_number : Z) (annot : Annot) (v : Verdict)
    : Z * string :=
  match v with
  | VEmpty => (old_page_number + 1, "Empty Annotation Text")
  | _ => (old_page_number + 1, target_of annot)
  end.

(** The note pass 2 creates for a reply, next to its new parent. *)
Definition reply_note (annot : Annot) (parent_annot : NewAnnot) : NewAnnot :=
  let content := dict_get (info annot) "content" "Reply" in
  let title := dict_get (info annot) "title" "Reply" in
  let tr := top_right (bounding_rect (na_quads parent_annot)) in
  let point := mkPoint (px tr + 5)%Q (py tr - 2)%Q in
  set_info content title
    (mkNewAnnot PDF_ANNOT_TEXT (na_page parent_annot) [] (Some point) None
       content "").

Definition transfer_note (annot : Annot) (parent_annot : NewAnnot)
    (s : Session) : Session :=
  print (OkReply (na_page parent_annot + 1)
           (PyStr.prefix 40 (dict_get (info annot) "content" "Reply")))
    (incr_transferred (emit_annot (reply_note annot parent_annot) s)).

(** The annotations of the old document in the order both passes visit
    them, each with the number of its page. *)
Fixpoint indexed_annots_from (old_page_number : Z) (old_pages : list OldPage)
    : list (Z * Annot) :=
  match old_pages with
  | [] => []
  | old_page :: rest =>
      map (pair old_page_number) old_page
      ++ indexed_annots_from (old_page_number + 1) rest
  end.

Definition indexed_annots (old_doc : OldDocument) : list (Z * Annot) :=
  indexed_annots_from 0 old_doc.

(** Pass 1 over a list of numbered annotations. *)
Fixpoint run_markups (cfg : Config) (output_doc : Document)
    (fuzzy_ratio : PyFloat.t) (fuzzy_allowance : Z) (l : list (Z * Annot))
    (s : Session) : result Session :=
  match l with
  | [] => Ok s
  | (old_page_number, annot) :: rest =>
      s ← transfer_markup cfg output_doc fuzzy_ratio fuzzy_allowance
            old_page_number annot s;
      run_markups cfg output_doc fuzzy_ratio fuzzy_allowance rest s
  end.

(** Counting the elements a test accepts. *)
Definition count {A} (f : A → bool) (l : list A) : nat :=
  length (List.filter f l).

Definition is_ok_exact (l : Line) : bool :=
  match l with OkExact _ _ _ => true | _ => false end.
Definition is_ok_fuzzy (l : Line) : bool :=
  match l with OkFuzzy _ _ _ => true | _ => false end.
Definition is_ok_reply (l : Line) : bool :=
  match l with OkReply _ _ => true | _ => false end.
Definition is_note (a : NewAnnot) : bool := na_type a =? PDF_ANNOT_TEXT.

(** Pass 2 over a list of annotations. *)
Definition run_replies (l : list Annot) (s : Session) : Session :=
  fold_left (fun s annot => transfer_reply annot s) l s.

(** What the counters count, read off the printed lines and the created
    annotations. *)
Definition counters_inv (s : Session) : Prop :=
  failed_count s = length (failed_annotations s)
  ∧ transferred_count s
    = (count is_ok_exact (printed s) + count is_ok_reply (printed s))%nat
  ∧ transferred_fuzzy_count s = count is_ok_fuzzy (printed s)
  ∧ count is_note (output_annots s) = count is_ok_reply (printed s)
  ∧ length (output_annots s)
    = (transferred_count s + transferred_fuzzy_count s)%nat.


(** The annotation of old page [old_page_number] is transferred, as the
    new annotation [new_annot]: treated alone, it puts [new_annot] on the
    output document. *)
Definition transferred_as (cfg : Config) (output_doc : Document)
    (fuzzy_ratio : PyFloat.t) (fuzzy_allowance : Z) (old_page_number : Z)
    (annot : Annot) (new_annot : NewAnnot) : Prop :=
  ∃ s', transfer_markup cfg output_doc fuzzy_ratio fuzzy_allowance
          old_page_number annot session_init = Ok s'
        ∧ output_annots s' = [new_annot].


(** The searches of an exact tier over a page list. *)
Definition search_calls (phrase : string) (idxs : list Z) : list Call :=
  map (fun idx => CallSearchFor idx phrase) idxs.

(** The calls and the outcome of the two fuzzy tiers. *)
Definition fuzzy_tiers_run (doc : Document) (phrase : string)
    (ratio : PyFloat.t) (allowance : Z) (local all : list Z)
    : Traced Located :=
  match find_best_fuzzy_match_in_pages doc phrase ratio allowance local with
  | Raise e => ([CallFuzzy phrase local], Raise e)
  | Ok r =>
      if returns_match (Ok r) then
        ([CallFuzzy phrase local], Ok (fst r, snd r, fuzzy))
      else
        match find_best_fuzzy_match_in_pages doc phrase ratio allowance all with
        | Raise e => ([CallFuzzy phrase local; CallFuzzy phrase all], Raise e)
        | Ok r' =>
            ([CallFuzzy phrase local; CallFuzzy phrase all],
             Ok (if returns_match (Ok r') then (fst r', snd r', fuzzy)
                 else (None, None, none)))
        end
  end.

(** ** Concrete documents *)

Definition ratio_default : PyFloat.t := PyFloat.Fin (3 # 10).
Definition allowance_default : Z := 5.

(** Two pages with three one-word windows at distance 1 from "rat". *)
Definition doc_cats : Document := [text_page "the cat sat"; text_page "a bat"].

Definition page_of (doc : Document) (idx : Z) : Page :=
  mkPage idx (nth (Z.to_nat idx) doc (plain_page [])).

(** A single page that does not contain "cat" but has a word close to it. *)
Definition doc_dog : Document := [text_page "a dog here"].


(** Five pages of filler, then the fox on page 5 (distance 5 from page 0). *)
Definition doc_fox5 : Document :=
  repeat (text_page "x") 5 ++ [text_page "the quick brown fox"].

(** The same with the fox on page 6. *)
Definition doc_fox6 : Document :=
  repeat (text_page "x") 6 ++ [text_page "the quick brown fox"].

(** Limits with a fuzzy limit stricter than the general one. *)
Definition strict_config : Config := mkConfig 5 5 3.

Definition highlight (xref : Z) (covered_text : string) : Annot :=
  annot_of PDF_ANNOT_HIGHLIGHT xref 0 covered_text.

Definition reply (xref irt_xref : Z) : Annot :=
  annot_of PDF_ANNOT_TEXT xref irt_xref "".

Definition annot_quick : Annot := highlight 1 "quick  brown".
Definition annot_quack : Annot := highlight 2 "quack brwn".
Definition fox_quads : list Quad :=
  word_quads [word_at 1 "quick"; word_at 2 "brown"].


Definition annot_blank : Annot := highlight 3 "   ".


(** An old page with a reply whose parent is not in the document. *)
Definition old_orphan_reply : OldDocument := [[reply 2 7]].

Definition doc_fox : Document := [text_page "the quick brown fox"].


(** ** Definitions for the further properties *)

(** Every character of the string is a space character. *)
Fixpoint all_space (s : string) : bool :=
  match s with
  | EmptyString => true
  | String c s' => PyStr.is_space c && all_space s'
  end.

(** Twelve pages with the fox on pages 5 and 9. *)
Definition doc_two_foxes : Document :=
  repeat (text_page "x") 5 ++ [text_page "the quick brown fox"]
  ++ repeat (text_page "x") 3 ++ [text_page "the quick brown fox"]
  ++ repeat (text_page "x") 2.


(** The kinds of old annotations the two passes tell apart. *)
Definition is_markup (a : Annot) : bool :=
  bool_decide (a_type a ∈ markup_types).
Definition is_reply (a : Annot) : bool := a_type a =? PDF_ANNOT_TEXT.

(** A sticky note whose parent is, or is not, in the transfer map. *)
Definition attachable (m : gmap Z NewAnnot) (a : Annot) : bool :=
  is_reply a && bool_decide (is_Some (m !! irt_xref a)).
Definition orphan (m : gmap Z NewAnnot) (a : Annot) : bool :=
  is_reply a && negb (bool_decide (is_Some (m !! irt_xref a))).

(** The note pass 2 creates for an annotation, if it creates one. *)
Definition note_of (m : gmap Z NewAnnot) (a : Annot) : option NewAnnot :=
  if is_reply a then reply_note a <$> m !! irt_xref a else None.

(** * Properties *)

Ltac unfold_bind := unfold mbind, mret, result_bind, result_ret in *.

(** ** The matcher reads the candidates in order *)

Lemma try_window_absorb text n page best i :
  try_window text n page best i = absorb best (candidate_at text n page i).
Proof. reflexivity. Qed.

Lemma fold_left_absorb_map {A} (f : A → Candidate) (l : list A) best :
  fold_left (fun b i => absorb b (f i)) l best
  = fold_left absorb (map f l) best.
Proof.
  revert best. induction l as [|a l IH]; intros best; simpl; [done|].
  apply IH.
Qed.

Lemma scan_page_candidates text n page best :
  scan_page text n page best
  = fold_left absorb (page_candidates text n page) best.
Proof.
  unfold scan_page, page_candidates.
  destruct (length (get_words (content page)) <? n)%nat; [done|].
  apply (fold_left_absorb_map (candidate_at text n page)).
Qed.

Lemma scan_pages_candidates doc text n idxs best :
  scan_pages doc text n idxs best
  = (pages ← load_pages doc idxs;
     Ok (fold_left absorb (candidates text n pages) best)).
Proof.
  revert best. induction idxs as [|i idxs IH]; intros best; simpl; [done|].
  unfold_bind. destruct (load_page doc i) as [page|e]; [|done].
  rewrite IH. unfold_bind.
  destruct (load_pages doc idxs) as [pages|e]; [|done].
  unfold candidates. simpl. rewrite fold_left_app, scan_page_candidates.
  done.
Qed.

(** A candidate that does not beat the current best leaves it in place;
    in particular one at the same distance. *)
Lemma absorb_keeps best c b :
  bm_distance best = Some b → (b ≤ c_distance c)%nat → absorb best c = best.
Proof.
  intros Hb Hle. unfold absorb, improves. rewrite Hb.
  destruct (Nat.ltb_spec (c_distance c) b); [lia|done].
Qed.

Lemma absorb_takes best c b :
  bm_distance best = Some b → (c_distance c < b)%nat →
  absorb best c = best_of c.
Proof.
  intros Hb Hlt. unfold absorb, improves. rewrite Hb.
  destruct (Nat.ltb_spec (c_distance c) b); [done|lia].
Qed.

Lemma absorb_init c : absorb best_init c = best_of c.
Proof. reflexivity. Qed.

(** Starting from a best that stands for [c0], the loop ends on the first
    minimum of [c0 :: cs]. *)
Lemma fold_absorb_first_minimum cs c0 :
  ∃ c, fold_left absorb cs (best_of c0) = best_of c
       ∧ first_minimum c (c0 :: cs).
Proof.
  induction cs as [|x cs IH] using rev_ind.
  - exists c0. split; [done|]. exists [], []. split; [done|].
    split; intros y Hy; by apply elem_of_nil in Hy.
  - destruct IH as (c & Hfold & before & after & Hsplit & Hbefore & Hafter).
    rewrite fold_left_app. simpl. rewrite Hfold.
    destruct (Nat.lt_ge_cases (c_distance x) (c_distance c)) as [Hlt|Hge].
    + exists x. split; [by apply (absorb_takes _ _ (c_distance c))|].
      exists (c0 :: cs), []. split; [done|]. split.
      * intros y Hy. rewrite Hsplit in Hy.
        apply elem_of_app in Hy as [Hy|Hy].
        -- specialize (Hbefore y Hy). lia.
        -- apply elem_of_cons in Hy as [->|Hy]; [done|].
           specialize (Hafter y Hy). lia.
      * intros y Hy. by apply elem_of_nil in Hy.
    + exists c. split; [by apply (absorb_keeps _ _ (c_distance c))|].
      exists before, (after ++ [x]). split.
      * change (c0 :: cs ++ [x]) with ((c0 :: cs) ++ [x]).
        rewrite Hsplit. by rewrite <- app_assoc.
      * split; [done|]. intros y Hy.
        apply elem_of_app in Hy as [Hy|Hy]; [by apply Hafter|].
        apply list_elem_of_singleton in Hy as ->. done.
Qed.

Lemma fold_absorb_init cs :
  match cs with
  | [] => fold_left absorb cs best_init = best_init
  | _ => ∃ c, fold_left absorb cs best_init = best_of c ∧ first_minimum c cs
  end.
Proof.
  destruct cs as [|c0 cs]; [done|]. simpl. apply fold_absorb_first_minimum.
Qed.

Lemma window_length ws i n :
  (i + n ≤ length ws)%nat → length (window ws i n) = n.
Proof.
  intros H. unfold window. rewrite length_take, length_drop. lia.
Qed.

Lemma page_candidates_length text n page c :
  c ∈ page_candidates text n page → length (c_words c) = n.
Proof.
  unfold page_candidates.
  destruct (Nat.ltb_spec (length (get_words (content page))) n) as [|Hle];
    [by intros ?%elem_of_nil|].
  intros (i & -> & Hi%elem_of_seq)%list_elem_of_fmap.
  simpl. apply window_length. lia.
Qed.

Lemma candidates_length text n pages c :
  c ∈ candidates text n pages → length (c_words c) = n.
Proof.
  unfold candidates. rewrite list_elem_of_In, in_flat_map.
  intros (page & _ & Hc). apply list_elem_of_In in Hc.
  by eapply page_candidates_length.
Qed.

Lemma first_minimum_elem c cs : first_minimum c cs → c ∈ cs.
Proof.
  intros (before & after & -> & _). apply elem_of_app. right. left.
Qed.

Lemma first_minimum_least c cs x :
  first_minimum c cs → x ∈ cs → (c_distance c ≤ c_distance x)%nat.
Proof.
  intros (before & after & -> & Hb & Ha) Hx.
  apply elem_of_app in Hx as [Hx|Hx]; [specialize (Hb x Hx); lia|].
  apply elem_of_cons in Hx as [->|Hx]; [lia|by apply Ha].
Qed.

(** The first minimum of a list is unique. *)
Lemma first_minimum_unique c c' cs :
  first_minimum c cs → first_minimum c' cs → c = c'.
Proof.
  intros (b1 & a1 & E1 & Hb1 & Ha1) (b2 & a2 & E2 & Hb2 & Ha2).
  assert (Hlen : length b1 = length b2).
  { destruct (Nat.lt_trichotomy (length b1) (length b2)) as [Hlt|[Heq|Hgt]];
      [exfalso|done|exfalso].
    - assert (Hc : b2 !! length b1 = Some c).
      { assert (Hl : cs !! length b1 = Some c)
          by (rewrite E1; apply list_lookup_middle; done).
        rewrite E2, lookup_app_l in Hl by done. done. }
      apply list_elem_of_lookup_2 in Hc. specialize (Hb2 c Hc).
      assert (c' ∈ a1).
      { assert (Hl : cs !! length b2 = Some c')
          by (rewrite E2; apply list_lookup_middle; done).
        rewrite E1 in Hl. rewrite lookup_app_r in Hl by lia.
        destruct (length b2 - length b1)%nat as [|k] eqn:Ek; [lia|].
        simpl in Hl. by apply list_elem_of_lookup_2 in Hl. }
      specialize (Ha1 c' H). lia.
    - assert (Hc : b1 !! length b2 = Some c').
      { assert (Hl : cs !! length b2 = Some c')
          by (rewrite E2; apply list_lookup_middle; done).
        rewrite E1, lookup_app_l in Hl by done. done. }
      apply list_elem_of_lookup_2 in Hc. specialize (Hb1 c' Hc).
      assert (c ∈ a2).
      { assert (Hl : cs !! length b1 = Some c)
          by (rewrite E1; apply list_lookup_middle; done).
        rewrite E2 in Hl. rewrite lookup_app_r in Hl by lia.
        destruct (length b1 - length b2)%nat as [|k] eqn:Ek; [lia|].
        simpl in Hl. by apply list_elem_of_lookup_2 in Hl. }
      specialize (Ha2 c H). lia. }
  assert (Hl1 : cs !! length b1 = Some c)
    by (rewrite E1; apply list_lookup_middle; done).
  assert (Hl2 : cs !! length b1 = Some c')
    by (rewrite E2; apply list_lookup_middle; done).
  congruence.
Qed.

(** What a call returns, in terms of the candidates it visits. *)
Lemma find_best_fuzzy_match_spec doc text ratio base idxs pages a :
  length (PyStr.split text) ≠ 0%nat →
  allowed_distance text ratio base = Ok a →
  load_pages doc idxs = Ok pages →
  match candidates text (length (PyStr.split text)) pages with
  | [] =>
      find_best_fuzzy_match_in_pages doc text ratio base idxs = Ok (None, None)
  | cs =>
      ∃ c, first_minimum c cs
           ∧ find_best_fuzzy_match_in_pages doc text ratio base idxs
             = Ok (if Z.of_nat (c_distance c) <=? a
                   then (Some (c_page c), Some (word_quads (c_words c)))
                   else (None, None))
  end.
Proof.
  intros Hn Ha Hpages. unfold find_best_fuzzy_match_in_pages.
  destruct (Nat.eqb_spec (length (PyStr.split text)) 0); [done|].
  rewrite Ha, scan_pages_candidates, Hpages. unfold_bind.
  pose proof (fold_absorb_init
                (candidates text (length (PyStr.split text)) pages)) as H.
  destruct (candidates text (length (PyStr.split text)) pages) as [|c0 cs].
  - rewrite H. done.
  - destruct H as (c & -> & Hmin). exists c. split; [done|].
    unfold within. simpl. by destruct (Z.of_nat (c_distance c) <=? a).
Qed.

(** ** The edit-distance budget *)

Lemma trunc_floor_nonneg q :
  0 <= Qnum q → Z.quot (Qnum q) (Z.pos (Qden q)) = Qfloor q.
Proof.
  intros H. destruct q as [n d]. simpl in *.
  apply Z.quot_div_nonneg; lia.
Qed.

Lemma trunc_ceiling_neg q :
  Qnum q < 0 → Z.quot (Qnum q) (Z.pos (Qden q)) = Qceiling q.
Proof.
  intros H. destruct q as [n d]. unfold Qceiling. simpl in *.
  replace n with (- - n) at 1 by lia.
  rewrite Z.quot_opp_l by lia. f_equal.
  apply Z.quot_div_nonneg; lia.
Qed.

Lemma trunc_mono p q :
  (p <= q)%Q →
  Z.quot (Qnum p) (Z.pos (Qden p)) <= Z.quot (Qnum q) (Z.pos (Qden q)).
Proof.
  intros Hle.
  destruct (Z.lt_ge_cases (Qnum p) 0) as [Hp|Hp];
    destruct (Z.lt_ge_cases (Qnum q) 0) as [Hq|Hq].
  - rewrite !trunc_ceiling_neg by done. by apply Qceiling_resp_le.
  - rewrite trunc_ceiling_neg, trunc_floor_nonneg by done.
    assert (Qceiling p <= 0).
    { change 0 with (Qceiling 0). apply Qceiling_resp_le.
      unfold Qle. simpl. lia. }
    assert (0 <= Qfloor q).
    { change 0 with (Qfloor 0). apply Qfloor_resp_le.
      unfold Qle. simpl. lia. }
    lia.
  - exfalso. unfold Qle in Hle.
    assert (0 <= Qnum p * Z.pos (Qden q)) by (apply Z.mul_nonneg_nonneg; lia).
    assert (Qnum q * Z.pos (Qden p) < 0) by (apply Z.mul_neg_pos; lia).
    lia.
  - rewrite !trunc_floor_nonneg by done. by apply Qfloor_resp_le.
Qed.

Lemma len_nonneg text : 0 <= PyStr.len text.
Proof. unfold PyStr.len. lia. Qed.

Lemma scale_mono n p q :
  0 <= n → (p <= q)%Q → (inject_Z n * p <= inject_Z n * q)%Q.
Proof.
  intros Hn Hle. rewrite !(Qmult_comm (inject_Z n)).
  apply Qmult_le_compat_r; [done|]. unfold Qle. simpl. lia.
Qed.





(** A larger ratio and a larger allowance give a budget at least as
    large, when both budgets exist. *)
Lemma allowed_distance_mono text r b r' b' a a' :
  PyFloat.le r r' = true → b <= b' →
  allowed_distance text r b = Ok a →
  allowed_distance text r' b' = Ok a' →
  a <= a'.
Proof.
  unfold allowed_distance, PyFloat.mul_int. intros Hle Hb Ha Ha'.
  destruct r as [p|s|];
    [|by destruct (PyStr.len text =? 0)|done].
  destruct r' as [q|s'|];
    [|by destruct (PyStr.len text =? 0)|done].
  destruct (PyFloat.overflows (inject_Z (PyStr.len text) * p)); [done|].
  destruct (PyFloat.overflows (inject_Z (PyStr.len text) * q)); [done|].
  unfold PyFloat.to_int in Ha, Ha'. unfold_bind.
  injection Ha as <-. injection Ha' as <-.
  simpl in Hle. apply Qle_bool_iff in Hle.
  pose proof (trunc_mono _ _ (scale_mono _ _ _ (len_nonneg text) Hle)) as H.
  simpl in H. lia.
Qed.


Lemma first_minimum_intro c cs before after :
  cs = before ++ c :: after →
  Forall (fun x => (c_distance c < c_distance x)%nat) before →
  Forall (fun x => (c_distance c ≤ c_distance x)%nat) after →
  first_minimum c cs.
Proof.
  intros E Hb Ha. exists before, after. split; [done|].
  split; [by apply Forall_forall|by apply Forall_forall].
Qed.

Lemma scan_pages_fold doc text idxs pages :
  load_pages doc idxs = Ok pages →
  scan_pages doc text (length (PyStr.split text)) idxs best_init
  = Ok (fold_left absorb
          (candidates text (length (PyStr.split text)) pages) best_init).
Proof. intros H. rewrite scan_pages_candidates, H. done. Qed.

Lemma find_best_no_candidates doc text ratio base idxs pages a :
  length (PyStr.split text) ≠ 0%nat →
  allowed_distance text ratio base = Ok a →
  load_pages doc idxs = Ok pages →
  candidates text (length (PyStr.split text)) pages = [] →
  scan_pages doc text (length (PyStr.split text)) idxs best_init = Ok best_init
  ∧ find_best_fuzzy_match_in_pages doc text ratio base idxs = Ok (None, None).
Proof.
  intros Hn Ha Hpages E.
  pose proof (find_best_fuzzy_match_spec doc text ratio base idxs pages a
                Hn Ha Hpages) as Hspec.
  rewrite (scan_pages_fold _ _ _ _ Hpages). rewrite E in *. done.
Qed.

Lemma find_best_selects doc text ratio base idxs pages a c :
  length (PyStr.split text) ≠ 0%nat →
  allowed_distance text ratio base = Ok a →
  load_pages doc idxs = Ok pages →
  first_minimum c (candidates text (length (PyStr.split text)) pages) →
  scan_pages doc text (length (PyStr.split text)) idxs best_init
  = Ok (best_of c)
  ∧ find_best_fuzzy_match_in_pages doc text ratio base idxs
    = Ok (if Z.of_nat (c_distance c) <=? a
          then (Some (c_page c), Some (word_quads (c_words c)))
          else (None, None)).
Proof.
  intros Hn Ha Hpages Hmin.
  pose proof (find_best_fuzzy_match_spec doc text ratio base idxs pages a
                Hn Ha Hpages) as Hspec.
  pose proof (fold_absorb_init
                (candidates text (length (PyStr.split text)) pages)) as Hfold.
  rewrite (scan_pages_fold _ _ _ _ Hpages).
  destruct (candidates text (length (PyStr.split text)) pages)
    as [|c0 cs'] eqn:E.
  { apply first_minimum_elem in Hmin. by apply elem_of_nil in Hmin. }
  destruct Hspec as (c1 & Hmin1 & Hres).
  destruct Hfold as (c2 & Hfold & Hmin2).
  rewrite (first_minimum_unique _ _ _ Hmin Hmin1).
  rewrite (first_minimum_unique _ _ _ Hmin2 Hmin1) in Hfold.
  by rewrite Hfold.
Qed.

Lemma first_minimum_exists cs : cs ≠ [] → ∃ c, first_minimum c cs.
Proof.
  intros Hne. pose proof (fold_absorb_init cs) as H.
  destruct cs as [|c0 cs']; [done|]. destruct H as (c & _ & Hmin).
  by exists c.
Qed.

(** ** The selected window *)

(** C5. The matcher keeps one best window across all candidate pages and
    resolves ties in favour of the first found.  A window that is not
    strictly closer than the current best, one at the same distance in
    particular, leaves it in place.  After the scan the best is the first
    candidate of least distance in visiting order (caller's page order,
    then window position); the result of the call is that candidate or
    nothing, so it is a function of the phrase and of the ordered list. *)
Theorem fuzzy_match_keeps_first_minimum doc text ratio base idxs pages a :
  length (PyStr.split text) ≠ 0%nat →
  allowed_distance text ratio base = Ok a →
  load_pages doc idxs = Ok pages →
  let n := length (PyStr.split text) in
  let cs := candidates text n pages in
  (∀ page best i d,
      bm_distance best = Some d →
      (d ≤ c_distance (candidate_at text n page i))%nat →
      try_window text n page best i = best)
  ∧ (cs = [] →
     scan_pages doc text n idxs best_init = Ok best_init
     ∧ find_best_fuzzy_match_in_pages doc text ratio base idxs
       = Ok (None, None))
  ∧ (cs ≠ [] → ∃ c, first_minimum c cs)
  ∧ (∀ c, first_minimum c cs →
     scan_pages doc text n idxs best_init = Ok (best_of c)
     ∧ find_best_fuzzy_match_in_pages doc text ratio base idxs
       = Ok (if Z.of_nat (c_distance c) <=? a
             then (Some (c_page c), Some (word_quads (c_words c)))
             else (None, None))).
Proof.
  intros Hn Ha Hpages n cs. split; [|split; [|split]].
  - intros page best i d Hd Hle. rewrite try_window_absorb.
    by apply (absorb_keeps _ _ d).
  - by apply (find_best_no_candidates doc text ratio base idxs pages a).
  - apply first_minimum_exists.
  - intros c. by apply find_best_selects.
Qed.

(** On [doc_cats], "cat", "sat" and "bat" are all at distance 1 from
    "rat"; the call returns "cat", the first of them. *)
Lemma fuzzy_match_keeps_first_minimum_witness :
  let c := candidate_at "rat" 1 (page_of doc_cats 0) 1 in
  (length (PyStr.split "rat") ≠ 0%nat
   ∧ allowed_distance "rat" ratio_default allowance_default = Ok 5
   ∧ load_pages doc_cats [0; 1] = Ok [page_of doc_cats 0; page_of doc_cats 1])
  ∧ first_minimum c (candidates "rat" 1 [page_of doc_cats 0; page_of doc_cats 1])
  ∧ find_best_fuzzy_match_in_pages doc_cats "rat" ratio_default
      allowance_default [0; 1]
    = Ok (Some (page_of doc_cats 0), Some [rect_quad (w_rect (word_at 1 "cat"))]).
Proof.
  intros c.
  assert (H1 : length (PyStr.split "rat") ≠ 0%nat) by (vm_compute; lia).
  assert (H2 : allowed_distance "rat" ratio_default allowance_default = Ok 5)
    by reflexivity.
  assert (H3 : load_pages doc_cats [0; 1]
               = Ok [page_of doc_cats 0; page_of doc_cats 1]) by reflexivity.
  assert (Hmin : first_minimum c (candidates "rat" 1
                    [page_of doc_cats 0; page_of doc_cats 1])).
  { apply (first_minimum_intro c _
             [candidate_at "rat" 1 (page_of doc_cats 0) 0]
             [candidate_at "rat" 1 (page_of doc_cats 0) 2;
              candidate_at "rat" 1 (page_of doc_cats 1) 0;
              candidate_at "rat" 1 (page_of doc_cats 1) 1]).
    - reflexivity.
    - repeat constructor; vm_compute; lia.
    - repeat constructor; vm_compute; lia. }
  split; [by repeat split|]. split; [exact Hmin|].
  destruct (fuzzy_match_keeps_first_minimum doc_cats "rat" ratio_default
              allowance_default [0; 1] _ 5 H1 H2 H3) as (_ & _ & _ & Hsel).
  destruct (Hsel c Hmin) as [_ Hres]. rewrite Hres. reflexivity.
Defined.

(** ** Budget and acceptance *)

Lemma find_best_no_words doc text ratio base idxs :
  length (PyStr.split text) = 0%nat →
  find_best_fuzzy_match_in_pages doc text ratio base idxs = Ok (None, None).
Proof.
  intros H. unfold find_best_fuzzy_match_in_pages. by rewrite H.
Qed.

Lemma find_best_budget_raises doc text ratio base idxs e :
  length (PyStr.split text) ≠ 0%nat →
  allowed_distance text ratio base = Raise e →
  find_best_fuzzy_match_in_pages doc text ratio base idxs = Raise e.
Proof.
  intros Hn H. unfold find_best_fuzzy_match_in_pages.
  destruct (Nat.eqb_spec (length (PyStr.split text)) 0); [done|].
  by rewrite H.
Qed.




(** ** Monotonicity of the budget *)

(** C6, as stated, fails on an infinite ratio.  With the default
    parameters "cat" is matched on [doc_dog] (the window
    "a", distance 2 within 5); with the larger ratio [inf] the budget
    cannot be computed and the call raises instead of returning a match. *)
Lemma infinite_ratio_loses_match :
  returns_match
    (find_best_fuzzy_match_in_pages doc_dog "cat" ratio_default 5 [0]) = true
  ∧ PyFloat.le ratio_default (PyFloat.Inf false) = true
  ∧ 5 <= 5
  ∧ find_best_fuzzy_match_in_pages doc_dog "cat" (PyFloat.Inf false) 5 [0]
    = Raise OverflowError
  ∧ returns_match
      (find_best_fuzzy_match_in_pages doc_dog "cat" (PyFloat.Inf false) 5 [0])
    = false.
Proof.
  split; [reflexivity|]. split; [reflexivity|]. split; [lia|].
  split; reflexivity.
Qed.

(** C6, amended.  If a call returns a match for a ratio and an allowance,
    then for every ratio and allowance at least as large whose budget can
    be computed (the product of the phrase length and the ratio is a
    finite float) the call returns the same match. *)
Theorem fuzzy_budget_monotone doc text r b r' b' idxs :
  returns_match (find_best_fuzzy_match_in_pages doc text r b idxs) = true →
  PyFloat.le r r' = true →
  b <= b' →
  raises (allowed_distance text r' b') = false →
  find_best_fuzzy_match_in_pages doc text r' b' idxs
  = find_best_fuzzy_match_in_pages doc text r b idxs
  ∧ returns_match (find_best_fuzzy_match_in_pages doc text r' b' idxs) = true.
Proof.
  intros Hm Hle Hb Hok.
  assert (E : find_best_fuzzy_match_in_pages doc text r' b' idxs
              = find_best_fuzzy_match_in_pages doc text r b idxs);
    [|by rewrite E].
  unfold find_best_fuzzy_match_in_pages in *.
  destruct (length (PyStr.split text) =? 0)%nat; [done|].
  destruct (allowed_distance text r b) as [a|e] eqn:Ea; [|done].
  destruct (allowed_distance text r' b') as [a'|e'] eqn:Ea'; [|done].
  pose proof (allowed_distance_mono _ _ _ _ _ _ _ Hle Hb Ea Ea') as Haa.
  unfold_bind.
  destruct (scan_pages doc text (length (PyStr.split text)) idxs best_init)
    as [best|e]; [|done].
  unfold within in *. destruct (bm_distance best) as [d|]; [|done].
  destruct (Z.leb_spec (Z.of_nat d) a); [|done].
  destruct (Z.leb_spec (Z.of_nat d) a'); [done|lia].
Qed.

(** Ratio 0.3 to 0.5 and allowance 5 to 7 on [doc_dog]: the window "a"
    stays the match for "cat". *)
Lemma fuzzy_budget_monotone_witness :
  (returns_match
     (find_best_fuzzy_match_in_pages doc_dog "cat" ratio_default 5 [0]) = true
   ∧ PyFloat.le ratio_default (PyFloat.Fin (1 # 2)) = true
   ∧ 5 <= 7
   ∧ raises (allowed_distance "cat" (PyFloat.Fin (1 # 2)) 7) = false)
  ∧ find_best_fuzzy_match_in_pages doc_dog "cat" (PyFloat.Fin (1 # 2)) 7 [0]
    = find_best_fuzzy_match_in_pages doc_dog "cat" ratio_default 5 [0]
  ∧ returns_match
      (find_best_fuzzy_match_in_pages doc_dog "cat" (PyFloat.Fin (1 # 2)) 7 [0])
    = true.
Proof.
  assert (H1 : returns_match
                 (find_best_fuzzy_match_in_pages doc_dog "cat" ratio_default 5
                    [0]) = true) by reflexivity.
  assert (H2 : PyFloat.le ratio_default (PyFloat.Fin (1 # 2)) = true)
    by reflexivity.
  assert (H3 : 5 <= 7) by lia.
  assert (H4 : raises (allowed_distance "cat" (PyFloat.Fin (1 # 2)) 7) = false)
    by reflexivity.
  split; [by repeat split|].
  exact (fuzzy_budget_monotone doc_dog "cat" ratio_default 5
           (PyFloat.Fin (1 # 2)) 7 [0] H1 H2 H3 H4).
Defined.

(** ** Pages and ranges *)

Lemma load_page_valid doc idx :
  0 <= idx < page_count doc →
  ∃ c, nth_error doc (Z.to_nat idx) = Some c
       ∧ load_page doc idx = Ok (mkPage idx c).
Proof.
  intros [H0 H1]. unfold load_page, page_count in *.
  destruct (Z.leb_spec (Z.of_nat (length doc)) idx); [lia|].
  destruct (Z.ltb_spec idx 0); [lia|].
  destruct (nth_error doc (Z.to_nat idx)) as [c|] eqn:E; [by exists c|].
  apply nth_error_None in E. lia.
Qed.

Lemma load_page_nth doc idx c :
  0 <= idx → nth_error doc (Z.to_nat idx) = Some c →
  load_page doc idx = Ok (mkPage idx c).
Proof.
  intros H0 Hc.
  assert (Z.to_nat idx < length doc)%nat
    by (apply nth_error_Some; congruence).
  destruct (load_page_valid doc idx) as (c' & Hc' & ->);
    [unfold page_count; lia|congruence].
Qed.

Lemma range_nil lo hi : hi <= lo → range lo hi = [].
Proof.
  intros H. unfold range. by replace (Z.to_nat (hi - lo)) with 0%nat by lia.
Qed.

Lemma range_cons lo hi : lo < hi → range lo hi = lo :: range (lo + 1) hi.
Proof.
  intros H. unfold range.
  replace (Z.to_nat (hi - lo)) with (S (Z.to_nat (hi - (lo + 1)))) by lia.
  simpl. f_equal; [lia|].
  rewrite <- seq_shift, map_map. apply map_ext. intros k. lia.
Qed.

Lemma elem_of_range idx lo hi : idx ∈ range lo hi ↔ lo <= idx < hi.
Proof.
  unfold range. rewrite list_elem_of_fmap. split.
  - intros (k & -> & Hk%elem_of_seq). lia.
  - intros H. exists (Z.to_nat (idx - lo)). split; [lia|].
    apply elem_of_seq. lia.
Qed.

(** Keeping the pages of an interval out of a range is a range. *)
Lemma filter_range a b lo hi :
  filter (fun idx => a <= idx <= b) (range lo hi)
  = range (Z.max lo a) (Z.min hi (b + 1)).
Proof.
  remember (Z.to_nat (hi - lo)) as n eqn:En.
  revert lo En. induction n as [|n IH]; intros lo En.
  - rewrite (range_nil lo hi) by lia. rewrite range_nil by lia. done.
  - rewrite (range_cons lo hi) by lia. rewrite filter_cons.
    rewrite (IH (lo + 1)) by lia.
    destruct (decide (a <= lo <= b)) as [Hin|Hout].
    + rewrite (range_cons (Z.max lo a)) by lia.
      f_equal; [lia|]. f_equal; lia.
    + destruct (Z.lt_ge_cases lo a).
      * f_equal; lia.
      * rewrite range_nil by lia. rewrite range_nil by lia. done.
Qed.

(** The slice the code computes is the window of the specification. *)
Lemma local_page_indices_window cfg doc anchor :
  local_page_indices cfg doc anchor = local_window cfg doc anchor.
Proof.
  unfold local_window, local_page_indices, all_page_indices, in_local_window.
  rewrite filter_range. f_equal; lia.
Qed.

Lemma all_page_indices_valid doc :
  Forall (fun idx => 0 <= idx < page_count doc) (all_page_indices doc).
Proof.
  apply Forall_forall. intros idx. unfold all_page_indices.
  by rewrite elem_of_range.
Qed.

Lemma local_window_valid cfg doc anchor :
  Forall (fun idx => 0 <= idx < page_count doc) (local_window cfg doc anchor).
Proof.
  unfold local_window. apply Forall_forall. intros idx.
  rewrite list_elem_of_filter. intros [_ H].
  pose proof (all_page_indices_valid doc) as Hall.
  rewrite Forall_forall in Hall. by apply Hall.
Qed.

(** ** The exact tiers *)

Lemma page_hits_valid doc phrase idx c :
  load_page doc idx = Ok (mkPage idx c) →
  page_hits doc phrase idx = list_truthy (search_for c phrase).
Proof. intros H. unfold page_hits. by rewrite H. Qed.

Lemma first_exact_cons doc phrase idx idxs c :
  load_page doc idx = Ok (mkPage idx c) →
  first_exact doc phrase (idx :: idxs)
  = if list_truthy (search_for c phrase)
    then Some (mkPage idx c, search_for c phrase)
    else first_exact doc phrase idxs.
Proof.
  intros H. unfold first_exact. rewrite filter_cons.
  rewrite (page_hits_valid _ _ _ _ H).
  destruct (list_truthy (search_for c phrase)) eqn:E.
  - rewrite decide_True by done. by rewrite H.
  - rewrite decide_False by done. done.
Qed.

(** An exact tier over loadable pages does not raise, finds the first
    page that has the phrase, and calls the search on the pages up to
    that one and on no other. *)
Lemma exact_search_spec doc phrase idxs :
  Forall (fun idx => 0 <= idx < page_count doc) idxs →
  ∃ k, exact_search doc phrase idxs
       = (search_calls phrase (take k idxs), Ok (first_exact doc phrase idxs))
       ∧ (first_exact doc phrase idxs = None → take k idxs = idxs).
Proof.
  induction 1 as [|idx idxs Hidx _ IH].
  - exists 0%nat. done.
  - destruct (load_page_valid doc idx Hidx) as (c & _ & Hload).
    rewrite (first_exact_cons _ _ _ _ _ Hload). simpl.
    unfold mbind, traced_bind, lift, tell. rewrite Hload. simpl.
    destruct (list_truthy (search_for c phrase)) eqn:E.
    + exists 1%nat. simpl. rewrite take_0. done.
    + destruct IH as (k & -> & Hk). exists (S k). simpl. split; [done|].
      intros Hnone. by rewrite Hk.
Qed.

Lemma first_exact_some doc phrase idxs page quads :
  Forall (fun idx => 0 <= idx < page_count doc) idxs →
  first_exact doc phrase idxs = Some (page, quads) →
  number page ∈ idxs
  ∧ load_page doc (number page) = Ok page
  ∧ quads = search_for (content page) phrase
  ∧ list_truthy quads = true.
Proof.
  induction 1 as [|idx idxs Hidx _ IH]; [done|].
  destruct (load_page_valid doc idx Hidx) as (c & _ & Hload).
  rewrite (first_exact_cons _ _ _ _ _ Hload).
  destruct (list_truthy (search_for c phrase)) eqn:E.
  - intros [= <- <-]. simpl. split; [left|done].
  - intros Hrest. destruct (IH Hrest) as (Hin & ?). split; [by right|done].
Qed.

Lemma first_exact_none doc phrase idxs :
  Forall (fun idx => 0 <= idx < page_count doc) idxs →
  first_exact doc phrase idxs = None ↔
  ∀ idx c, idx ∈ idxs → nth_error doc (Z.to_nat idx) = Some c →
           search_for c phrase = [].
Proof.
  induction 1 as [|idx idxs Hidx _ IH].
  - split; [|done]. intros _ idx c Hin. by apply elem_of_nil in Hin.
  - destruct (load_page_valid doc idx Hidx) as (c & Hc & Hload).
    rewrite (first_exact_cons _ _ _ _ _ Hload).
    destruct (search_for c phrase) as [|q qs] eqn:E; simpl.
    + rewrite IH. split.
      * intros Hrest i c' [->|Hin]%elem_of_cons Hc'; [congruence|].
        by apply (Hrest i).
      * intros Hall i c' Hin. apply Hall. by right.
    + split; [done|]. intros Hall.
      specialize (Hall idx c (list_elem_of_here _ _) Hc). congruence.
Qed.

(** ** The fuzzy tiers *)

Lemma scan_pages_loads doc text n idxs best best' :
  scan_pages doc text n idxs best = Ok best' →
  ∃ pages, load_pages doc idxs = Ok pages.
Proof.
  rewrite scan_pages_candidates. unfold_bind.
  destruct (load_pages doc idxs) as [pages|e]; [by exists pages|done].
Qed.

(** A call answers [(None, None)] or a page with at least one quad. *)
Lemma find_best_shape doc text ratio base idxs r :
  find_best_fuzzy_match_in_pages doc text ratio base idxs = Ok r →
  r = (None, None) ∨ ∃ page q quads, r = (Some page, Some (q :: quads)).
Proof.
  intros Hr.
  destruct (Nat.eq_dec (length (PyStr.split text)) 0%nat) as [Hn|Hn].
  { rewrite find_best_no_words in Hr by done. left. congruence. }
  destruct (allowed_distance text ratio base) as [a|e] eqn:Ea.
  2:{ rewrite (find_best_budget_raises _ _ _ _ _ e) in Hr; done. }
  assert (∃ pages, load_pages doc idxs = Ok pages) as [pages Hpages].
  { unfold find_best_fuzzy_match_in_pages in Hr.
    destruct (Nat.eqb_spec (length (PyStr.split text)) 0); [done|].
    rewrite Ea in Hr. unfold_bind.
    destruct (scan_pages doc text (length (PyStr.split text)) idxs best_init)
      as [best|e] eqn:Es; [|done].
    by eapply scan_pages_loads. }
  pose proof (find_best_fuzzy_match_spec doc text ratio base idxs pages a
                Hn Ea Hpages) as Hspec.
  destruct (candidates text (length (PyStr.split text)) pages)
    as [|c0 cs] eqn:E.
  { left. congruence. }
  destruct Hspec as (c & Hmin & Hres). rewrite Hres in Hr.
  destruct (Z.of_nat (c_distance c) <=? a); [|left; congruence].
  right. injection Hr as <-.
  assert (Hlen : length (c_words c) = length (PyStr.split text)).
  { eapply candidates_length. rewrite E. by apply first_minimum_elem. }
  destruct (c_words c) as [|w ws]; [simpl in Hlen; lia|].
  by exists (c_page c), (rect_quad (w_rect w)), (word_quads ws).
Qed.

(** The test [if page and quads] holds exactly for a returned match. *)
Lemma page_and_quads_match doc text ratio base idxs r :
  find_best_fuzzy_match_in_pages doc text ratio base idxs = Ok r →
  page_and_quads r = returns_match (Ok r).
Proof.
  intros [->|(page & q & quads & ->)]%find_best_shape; done.
Qed.

(** ** The run of the locator, tier by tier *)

Lemma find_text_occurrence_run cfg doc text ratio allowance anchor :
  let phrase := PyStr.normalize text in
  let local := local_window cfg doc anchor in
  let all := all_page_indices doc in
  phrase ≠ "" →
  ∃ k1 k2,
    find_text_occurrence cfg doc text ratio allowance anchor
    = match first_exact doc phrase local with
      | Some (page, quads) =>
          (search_calls phrase (take k1 local),
           Ok (Some page, Some quads, exact))
      | None =>
          match first_exact doc phrase all with
          | Some (page, quads) =>
              (search_calls phrase local ++ search_calls phrase (take k2 all),
               Ok (Some page, Some quads, exact))
          | None =>
              let t := fuzzy_tiers_run doc phrase ratio allowance local all in
              (search_calls phrase local ++ search_calls phrase all ++ calls t,
               outcome t)
          end
      end.
Proof.
  intros phrase local all Hne.
  destruct (exact_search_spec doc phrase local (local_window_valid _ _ _))
    as (k1 & E1 & K1).
  destruct (exact_search_spec doc phrase all (all_page_indices_valid _))
    as (k2 & E2 & K2).
  exists k1, k2. unfold find_text_occurrence. fold phrase.
  assert (Ht : PyStr.truthy phrase = true) by (by destruct phrase).
  rewrite Ht. simpl negb. cbv iota.
  rewrite local_page_indices_window. fold local. fold all.
  unfold mbind at 1. unfold traced_bind at 1. rewrite E1.
  destruct (first_exact doc phrase local) as [[page quads]|].
  { simpl. by rewrite app_nil_r. }
  rewrite (K1 eq_refl).
  unfold mbind at 1. unfold traced_bind at 1. rewrite E2.
  destruct (first_exact doc phrase all) as [[page quads]|].
  { simpl. by rewrite app_nil_r. }
  rewrite (K2 eq_refl).
  unfold fuzzy_tiers_run, fuzzy_search, lift, tell.
  unfold mbind, traced_bind, mret, traced_ret.
  destruct (find_best_fuzzy_match_in_pages doc phrase ratio allowance local)
    as [r|e] eqn:F1; [|done].
  rewrite (page_and_quads_match _ _ _ _ _ _ F1).
  destruct (returns_match (Ok r)); [done|].
  destruct (find_best_fuzzy_match_in_pages doc phrase ratio allowance all)
    as [r'|e] eqn:F2; [|done].
  rewrite (page_and_quads_match _ _ _ _ _ _ F2).
  destruct (returns_match (Ok r')); done.
Qed.








(** ** One annotation of pass 1, case by case *)

Lemma add_markup_annot_markup annot new_page quads :
  a_type annot ∈ markup_types →
  add_markup_annot (a_type annot) new_page quads
  = Some (new_markup annot new_page quads).
Proof.
  unfold markup_types, new_markup, add_markup_annot.
  intros H. repeat (apply elem_of_cons in H as [->|H]); try done.
  by apply elem_of_nil in H.
Qed.

Lemma truthy_nonempty text : PyStr.truthy text = true ↔ text ≠ "".
Proof. by destruct text. Qed.

Lemma transfer_markup_unsupported cfg doc fr fa old annot s :
  a_type annot ∉ markup_types →
  transfer_markup cfg doc fr fa old annot s = Ok (incr_unsupported s).
Proof.
  intros H. unfold transfer_markup. by rewrite bool_decide_eq_false_2.
Qed.

Lemma transfer_markup_empty cfg doc fr fa old annot s :
  a_type annot ∈ markup_types →
  target_of annot = "" →
  transfer_markup cfg doc fr fa old annot s = Ok (fail_empty old s).
Proof.
  intros H E. unfold transfer_markup. rewrite bool_decide_eq_true_2 by done.
  unfold target_of in E. simpl. by rewrite E.
Qed.

Lemma transfer_markup_raises cfg doc fr fa old annot s e :
  a_type annot ∈ markup_types →
  target_of annot ≠ "" →
  outcome (find_text_occurrence cfg doc (target_of annot) fr fa old)
  = Raise e →
  transfer_markup cfg doc fr fa old annot s = Raise e.
Proof.
  intros H Hne Hrun. unfold transfer_markup.
  rewrite bool_decide_eq_true_2 by done. fold (target_of annot).
  apply truthy_nonempty in Hne. rewrite Hne. simpl. by rewrite Hrun.
Qed.

Lemma transfer_markup_not_found cfg doc fr fa old annot s new_page quads :
  a_type annot ∈ markup_types →
  target_of annot ≠ "" →
  outcome (find_text_occurrence cfg doc (target_of annot) fr fa old)
  = Ok (new_page, quads, none) →
  transfer_markup cfg doc fr fa old annot s
  = Ok (fail_not_found old (target_of annot) s).
Proof.
  intros H Hne Hrun. unfold transfer_markup.
  rewrite bool_decide_eq_true_2 by done. fold (target_of annot).
  apply truthy_nonempty in Hne. rewrite Hne. simpl. by rewrite Hrun.
Qed.

Lemma transfer_markup_located cfg doc fr fa old annot s new_page quads mt :
  a_type annot ∈ markup_types →
  target_of annot ≠ "" →
  outcome (find_text_occurrence cfg doc (target_of annot) fr fa old)
  = Ok (Some new_page, Some quads, mt) →
  mt ≠ none →
  transfer_markup cfg doc fr fa old annot s
  = Ok (if page_distance_of new_page old >? MAX_PAGE_DISTANCE cfg then
          fail_too_far old (target_of annot) mt new_page s
        else if bool_decide (mt = fuzzy)
                && (page_distance_of new_page old
                    >? FUZZY_MAX_PAGE_DISTANCE cfg) then
          fail_fuzzy_too_far old (target_of annot) new_page s
        else if bool_decide (mt = exact) then
          transfer_exact old annot new_page quads s
        else transfer_fuzzy old annot new_page quads s).
Proof.
  intros H Hne Hrun Hmt. unfold transfer_markup.
  rewrite bool_decide_eq_true_2 by done. fold (target_of annot).
  apply truthy_nonempty in Hne. rewrite Hne. simpl. rewrite Hrun. simpl.
  rewrite bool_decide_eq_false_2 by done. simpl.
  fold (page_distance_of new_page old).
  destruct (page_distance_of new_page old >? MAX_PAGE_DISTANCE cfg); [done|].
  destruct (bool_decide (mt = fuzzy)
            && (page_distance_of new_page old >? FUZZY_MAX_PAGE_DISTANCE cfg));
    [done|].
  rewrite add_markup_annot_markup by done.
  destruct mt; done.
Qed.

(** ** The page-distance gates *)

Lemma printed_fail_too_far old target mt page s :
  printed (fail_too_far old target mt page s)
  = printed s ++ [FailTooFar (old + 1) mt (number page + 1)
                    (PyStr.prefix 40 target)].
Proof. reflexivity. Qed.

Lemma printed_differs (l : list Line) a b : a ≠ b → l ++ [a] ≠ l ++ [b].
Proof. intros Hne E. apply app_inv_head in E. congruence. Qed.

(** C2. A located match is gated on the absolute difference between the
    matched page and the page of the annotation.  At a distance of
    exactly [MAX_PAGE_DISTANCE] the general gate lets the match through
    and at [MAX_PAGE_DISTANCE + 1] it rejects it, whatever the match
    type.  A fuzzy match further than [FUZZY_MAX_PAGE_DISTANCE] but within
    [MAX_PAGE_DISTANCE] is rejected by the fuzzy gate, and an exact match
    at the same distance is transferred. *)
Theorem page_distance_gates cfg doc fr fa old annot s new_page quads mt :
  a_type annot ∈ markup_types →
  target_of annot ≠ "" →
  outcome (find_text_occurrence cfg doc (target_of annot) fr fa old)
  = Ok (Some new_page, Some quads, mt) →
  mt ≠ none →
  let d := page_distance_of new_page old in
  let run := transfer_markup cfg doc fr fa old annot s in
  let too_far := fail_too_far old (target_of annot) mt new_page s in
  let fuzzy_too_far := fail_fuzzy_too_far old (target_of annot) new_page s in
  (d = MAX_PAGE_DISTANCE cfg + 1 → run = Ok too_far)
  ∧ (MAX_PAGE_DISTANCE cfg < d → run = Ok too_far)
  ∧ (d = MAX_PAGE_DISTANCE cfg →
     run ≠ Ok too_far
     ∧ (mt = exact → run = Ok (transfer_exact old annot new_page quads s))
     ∧ (mt = fuzzy → d <= FUZZY_MAX_PAGE_DISTANCE cfg →
        run = Ok (transfer_fuzzy old annot new_page quads s)))
  ∧ (FUZZY_MAX_PAGE_DISTANCE cfg < d <= MAX_PAGE_DISTANCE cfg →
     (mt = fuzzy → run = Ok fuzzy_too_far)
     ∧ (mt = exact → run = Ok (transfer_exact old annot new_page quads s)))
  ∧ (d <= MAX_PAGE_DISTANCE cfg → d <= FUZZY_MAX_PAGE_DISTANCE cfg →
     run = Ok (if bool_decide (mt = exact)
               then transfer_exact old annot new_page quads s
               else transfer_fuzzy old annot new_page quads s)).
Proof.
  intros Htype Hne Hrun Hmt d run too_far fuzzy_too_far.
  pose proof (transfer_markup_located cfg doc fr fa old annot s new_page
                quads mt Htype Hne Hrun Hmt) as Hstep.
  fold run d in Hstep.
  assert (Hfar : MAX_PAGE_DISTANCE cfg < d → run = Ok too_far).
  { intros Hd. rewrite Hstep.
    by destruct (Z.gtb_spec d (MAX_PAGE_DISTANCE cfg)); [|lia]. }
  assert (Hnear : d <= MAX_PAGE_DISTANCE cfg →
            run = Ok (if bool_decide (mt = fuzzy)
                         && (d >? FUZZY_MAX_PAGE_DISTANCE cfg)
                      then fuzzy_too_far
                      else if bool_decide (mt = exact)
                      then transfer_exact old annot new_page quads s
                      else transfer_fuzzy old annot new_page quads s)).
  { intros Hd. rewrite Hstep.
    by destruct (Z.gtb_spec d (MAX_PAGE_DISTANCE cfg)); [lia|]. }
  split; [intros Hd; apply Hfar; lia|]. split; [exact Hfar|].
  split; [|split].
  - intros Hd. rewrite Hnear by lia. split; [|split].
    + intros E. injection E as E. apply (f_equal printed) in E.
      unfold too_far in E. rewrite printed_fail_too_far in E.
      destruct (bool_decide (mt = fuzzy) && _).
      { by apply printed_differs in E. }
      destruct (bool_decide (mt = exact)); by apply printed_differs in E.
    + intros ->. done.
    + intros -> Hf. simpl.
      by destruct (Z.gtb_spec d (FUZZY_MAX_PAGE_DISTANCE cfg)); [lia|].
  - intros [Hlo Hhi]. rewrite Hnear by lia. split.
    + intros ->. simpl.
      by destruct (Z.gtb_spec d (FUZZY_MAX_PAGE_DISTANCE cfg)); [|lia].
    + intros ->. done.
  - intros Hd Hf. rewrite Hnear by lia.
    destruct (Z.gtb_spec d (FUZZY_MAX_PAGE_DISTANCE cfg)); [lia|].
    by rewrite andb_false_r.
Qed.


(** With limits 5 (general) and 3 (fuzzy) and an annotation of page 0: a
    fuzzy match on page 5 is rejected by the fuzzy gate, the exact match
    on page 5 is transferred, the exact match on page 6 is rejected by the
    general gate. *)
Lemma page_distance_gates_witness :
  (a_type annot_quack ∈ markup_types ∧ target_of annot_quack ≠ ""
   ∧ outcome (find_text_occurrence strict_config doc_fox5
                (target_of annot_quack) ratio_default 5 0)
     = Ok (Some (page_of doc_fox5 5), Some fox_quads, fuzzy)
   ∧ FUZZY_MAX_PAGE_DISTANCE strict_config
     < page_distance_of (page_of doc_fox5 5) 0
     <= MAX_PAGE_DISTANCE strict_config
   ∧ transfer_markup strict_config doc_fox5 ratio_default 5 0 annot_quack
       session_init
     = Ok (fail_fuzzy_too_far 0 (target_of annot_quack) (page_of doc_fox5 5)
             session_init))
  ∧ (outcome (find_text_occurrence strict_config doc_fox5
                (target_of annot_quick) ratio_default 5 0)
     = Ok (Some (page_of doc_fox5 5), Some fox_quads, exact)
     ∧ page_distance_of (page_of doc_fox5 5) 0
       = MAX_PAGE_DISTANCE strict_config
     ∧ transfer_markup strict_config doc_fox5 ratio_default 5 0 annot_quick
         session_init
       = Ok (transfer_exact 0 annot_quick (page_of doc_fox5 5) fox_quads
               session_init))
  ∧ (outcome (find_text_occurrence strict_config doc_fox6
                (target_of annot_quick) ratio_default 5 0)
     = Ok (Some (page_of doc_fox6 6), Some fox_quads, exact)
     ∧ page_distance_of (page_of doc_fox6 6) 0
       = MAX_PAGE_DISTANCE strict_config + 1
     ∧ transfer_markup strict_config doc_fox6 ratio_default 5 0 annot_quick
         session_init
       = Ok (fail_too_far 0 (target_of annot_quick) exact (page_of doc_fox6 6)
               session_init)).
Proof.
  assert (Tf : a_type annot_quack ∈ markup_types) by left.
  assert (Te : a_type annot_quick ∈ markup_types) by left.
  assert (Nf : target_of annot_quack ≠ "") by (vm_compute; discriminate).
  assert (Ne : target_of annot_quick ≠ "") by (vm_compute; discriminate).
  assert (Rf : outcome (find_text_occurrence strict_config doc_fox5
                          (target_of annot_quack) ratio_default 5 0)
               = Ok (Some (page_of doc_fox5 5), Some fox_quads, fuzzy))
    by (vm_compute; reflexivity).
  assert (Re : outcome (find_text_occurrence strict_config doc_fox5
                          (target_of annot_quick) ratio_default 5 0)
               = Ok (Some (page_of doc_fox5 5), Some fox_quads, exact))
    by (vm_compute; reflexivity).
  assert (R6 : outcome (find_text_occurrence strict_config doc_fox6
                          (target_of annot_quick) ratio_default 5 0)
               = Ok (Some (page_of doc_fox6 6), Some fox_quads, exact))
    by (vm_compute; reflexivity).
  assert (Df : FUZZY_MAX_PAGE_DISTANCE strict_config
               < page_distance_of (page_of doc_fox5 5) 0
               <= MAX_PAGE_DISTANCE strict_config)
    by (vm_compute; split; [reflexivity|discriminate]).
  assert (De : page_distance_of (page_of doc_fox5 5) 0
               = MAX_PAGE_DISTANCE strict_config) by (vm_compute; reflexivity).
  assert (D6 : page_distance_of (page_of doc_fox6 6) 0
               = MAX_PAGE_DISTANCE strict_config + 1)
    by (vm_compute; reflexivity).
  assert (Mf : fuzzy ≠ none) by discriminate.
  assert (Me : exact ≠ none) by discriminate.
  split; [|split].
  - destruct (page_distance_gates strict_config doc_fox5 ratio_default 5 0
                annot_quack session_init _ _ fuzzy Tf Nf Rf Mf)
      as (_ & _ & _ & Hgate & _).
    destruct (Hgate Df) as [Hrej _].
    exact (conj Tf (conj Nf (conj Rf (conj Df (Hrej eq_refl))))).
  - destruct (page_distance_gates strict_config doc_fox5 ratio_default 5 0
                annot_quick session_init _ _ exact Te Ne Re Me)
      as (_ & _ & Hat & _).
    destruct (Hat De) as (_ & Hacc & _).
    exact (conj Re (conj De (Hacc eq_refl))).
  - destruct (page_distance_gates strict_config doc_fox6 ratio_default 5 0
                annot_quick session_init _ _ exact Te Ne R6 Me)
      as (Hnext & _).
    exact (conj R6 (conj D6 (Hnext D6))).
Defined.

(** ** Normalisation is idempotent *)

Lemma string_app_cons c (a b : string) :
  (String c a ++ b)%string = String c (a ++ b)%string.
Proof. reflexivity. Qed.

Lemma string_app_nil_l (b : string) : ("" ++ b)%string = b.
Proof. reflexivity. Qed.

Lemma string_app_nil_r (s : string) : (s ++ "")%string = s.
Proof.
  induction s as [|c s IH]; [done|]. rewrite string_app_cons. by f_equal.
Qed.

Lemma string_app_assoc (a b c : string) :
  ((a ++ b) ++ c)%string = (a ++ (b ++ c))%string.
Proof.
  induction a as [|x a IH]; [done|]. rewrite !string_app_cons. by f_equal.
Qed.

Lemma string_app_nonempty (a : string) x (b : string) :
  (a ++ String x b)%string ≠ "".
Proof. destruct a; [by rewrite string_app_nil_l|by rewrite string_app_cons]. Qed.

Lemma spacefree_app a b :
  spacefree (a ++ b)%string = spacefree a && spacefree b.
Proof.
  induction a as [|x a IH]; [done|]. rewrite string_app_cons. simpl.
  rewrite IH. by rewrite andb_assoc.
Qed.

Lemma split_from_word cur w rest :
  spacefree w = true →
  PyStr.split_from cur (w ++ rest)%string
  = PyStr.split_from (cur ++ w)%string rest.
Proof.
  revert cur. induction w as [|c w IH]; intros cur Hw.
  - by rewrite string_app_nil_l, string_app_nil_r.
  - simpl in Hw. apply andb_true_iff in Hw as [Hc Hw].
    apply negb_true_iff in Hc. rewrite string_app_cons. simpl.
    rewrite Hc, IH by done. rewrite string_app_assoc.
    by rewrite string_app_cons, string_app_nil_l.
Qed.

Lemma split_from_space cur rest :
  cur ≠ "" →
  PyStr.split_from cur (String " " rest) = cur :: PyStr.split_from "" rest.
Proof. intros H. simpl. by destruct cur. Qed.

Lemma split_from_words s : ∀ cur,
  spacefree cur = true → Forall is_word (PyStr.split_from cur s).
Proof.
  induction s as [|c s IH]; intros cur Hcur; simpl.
  - destruct cur; [constructor|]. by repeat constructor.
  - destruct (PyStr.is_space c) eqn:Hc.
    + destruct cur; [by apply IH|].
      constructor; [done|by apply IH].
    + apply IH. rewrite spacefree_app, Hcur. simpl. by rewrite Hc.
Qed.

Lemma split_join ws :
  Forall is_word ws → PyStr.split (PyStr.join " " ws) = ws.
Proof.
  unfold PyStr.split, PyStr.join.
  induction 1 as [|w ws [Hne Hw] Hws IH]; [done|].
  destruct ws as [|w' ws].
  - simpl. rewrite <- (string_app_nil_r w) at 1.
    rewrite split_from_word by done. rewrite string_app_nil_l. simpl.
    by destruct w.
  - change (String.concat " " (w :: w' :: ws))
      with (w ++ String " " (String.concat " " (w' :: ws)))%string.
    rewrite split_from_word by done. rewrite string_app_nil_l.
    rewrite split_from_space by done. by rewrite IH.
Qed.

Lemma normalize_idempotent s :
  PyStr.normalize (PyStr.normalize s) = PyStr.normalize s.
Proof.
  unfold PyStr.normalize. rewrite split_join; [done|].
  by apply split_from_words.
Qed.

Lemma target_of_normalized annot :
  PyStr.normalize (target_of annot) = target_of annot.
Proof. apply normalize_idempotent. Qed.

(** ** A phrase that no tier finds *)

Lemma load_pages_valid doc idxs :
  Forall (fun idx => 0 <= idx < page_count doc) idxs →
  ∃ pages, load_pages doc idxs = Ok pages
           ∧ ∀ page, page ∈ pages → ∃ idx, load_page doc idx = Ok page.
Proof.
  induction 1 as [|idx idxs Hidx _ (pages & Hpages & Hall)].
  - exists []. split; [done|]. intros page Hin. by apply elem_of_nil in Hin.
  - destruct (load_page_valid doc idx Hidx) as (c & _ & Hload).
    exists (mkPage idx c :: pages). simpl. rewrite Hload, Hpages.
    split; [done|].
    intros page [->|Hin]%elem_of_cons; [by exists idx|by apply Hall].
Qed.

Lemma elem_of_candidates text n pages c :
  c ∈ candidates text n pages →
  ∃ page, page ∈ pages ∧ c ∈ page_candidates text n page.
Proof.
  unfold candidates. rewrite list_elem_of_In, in_flat_map.
  intros (page & Hp & Hc). exists page.
  by rewrite !list_elem_of_In.
Qed.

Lemma nth_error_lookup {A} (l : list A) (i : nat) : nth_error l i = l !! i.
Proof. revert i. induction l as [|x l IH]; intros [|i]; simpl; auto. Qed.

(** Whatever index loads a page, the page is one of the document. *)
Lemma load_page_all_pages doc idx page :
  load_page doc idx = Ok page → page ∈ all_pages doc.
Proof.
  unfold load_page, all_pages, page_count.
  destruct (Z.leb_spec (Z.of_nat (length doc)) idx); [done|].
  set (i := if idx <? 0 then idx mod Z.of_nat (length doc) else idx).
  destruct (nth_error doc (Z.to_nat i)) as [c|] eqn:E; [|done].
  intros [= <-]. apply elem_of_lookup_imap.
  exists (Z.to_nat i), c. rewrite <- nth_error_lookup. split; [|done].
  f_equal. unfold i. destruct (Z.ltb_spec idx 0); [|lia].
  assert (0 < Z.of_nat (length doc)).
  { destruct doc; [|simpl; lia]. unfold i in E.
    destruct (Z.to_nat _) in E; done. }
  pose proof (Z.mod_pos_bound idx (Z.of_nat (length doc))). lia.
Qed.

Lemma candidates_of_loaded doc text n pages c :
  (∀ page, page ∈ pages → ∃ idx, load_page doc idx = Ok page) →
  c ∈ candidates text n pages → c ∈ candidates text n (all_pages doc).
Proof.
  intros Hall (page & Hp & Hc)%elem_of_candidates.
  destruct (Hall page Hp) as [idx Hload%load_page_all_pages].
  unfold candidates. rewrite list_elem_of_In, in_flat_map.
  exists page. by rewrite <- !list_elem_of_In.
Qed.

(** When every window of every page is beyond the budget, a fuzzy pass
    over loadable pages returns none. *)
Lemma find_best_none doc text ratio base idxs a :
  Forall (fun idx => 0 <= idx < page_count doc) idxs →
  allowed_distance text ratio base = Ok a →
  Forall (fun c => a < Z.of_nat (c_distance c))
         (candidates text (length (PyStr.split text)) (all_pages doc)) →
  find_best_fuzzy_match_in_pages doc text ratio base idxs = Ok (None, None).
Proof.
  intros Hvalid Ha Hfar.
  destruct (Nat.eq_dec (length (PyStr.split text)) 0%nat) as [Hn|Hn];
    [by apply find_best_no_words|].
  destruct (load_pages_valid doc idxs Hvalid) as (pages & Hpages & Hall).
  pose proof (find_best_fuzzy_match_spec doc text ratio base idxs pages a
                Hn Ha Hpages) as Hspec.
  destruct (candidates text (length (PyStr.split text)) pages)
    as [|c0 cs] eqn:E; [done|].
  destruct Hspec as (c & Hmin & ->).
  apply first_minimum_elem in Hmin. rewrite <- E in Hmin.
  apply (candidates_of_loaded doc) in Hmin; [|done].
  rewrite Forall_forall in Hfar. specialize (Hfar c Hmin).
  by destruct (Z.leb_spec (Z.of_nat (c_distance c)) a); [lia|].
Qed.

Lemma first_exact_absent doc phrase idxs :
  Forall (fun idx => 0 <= idx < page_count doc) idxs →
  Forall (fun c => search_for c phrase = []) doc →
  first_exact doc phrase idxs = None.
Proof.
  intros Hvalid Habsent. apply first_exact_none; [done|].
  intros idx c _ Hc. rewrite Forall_forall in Habsent.
  apply Habsent. apply list_elem_of_In. by eapply nth_error_In.
Qed.

(** No page has the phrase and no window is within the budget: all four
    tiers fail. *)
Lemma find_text_occurrence_none cfg doc text ratio allowance anchor a :
  let phrase := PyStr.normalize text in
  phrase ≠ "" →
  Forall (fun c => search_for c phrase = []) doc →
  allowed_distance phrase ratio allowance = Ok a →
  Forall (fun c => a < Z.of_nat (c_distance c))
         (candidates phrase (length (PyStr.split phrase)) (all_pages doc)) →
  outcome (find_text_occurrence cfg doc text ratio allowance anchor)
  = Ok (None, None, none).
Proof.
  intros phrase Hne Habsent Ha Hfar.
  destruct (find_text_occurrence_run cfg doc text ratio allowance anchor Hne)
    as (k1 & k2 & ->).
  fold phrase.
  rewrite (first_exact_absent doc phrase _ (local_window_valid _ _ _) Habsent).
  rewrite (first_exact_absent doc phrase _ (all_page_indices_valid _) Habsent).
  simpl. unfold fuzzy_tiers_run.
  rewrite (find_best_none doc phrase ratio allowance _ a
             (local_window_valid _ _ _) Ha Hfar).
  simpl.
  rewrite (find_best_none doc phrase ratio allowance _ a
             (all_page_indices_valid _) Ha Hfar).
  done.
Qed.

(** C7, as stated, fails on a near miss.  "cat" stands on no page of
    [doc_dog], yet the locator answers with
    the fuzzy match "a" (distance 2 within the budget 5) and the
    session transfers the annotation instead of recording a failure. *)
Lemma absent_phrase_fuzzy_match :
  Forall (fun c => search_for c "cat" = []) doc_dog
  ∧ outcome (find_text_occurrence source_config doc_dog "cat" ratio_default 5 0)
    = Ok (Some (page_of doc_dog 0), Some (word_quads [word_at 0 "a"]), fuzzy)
  ∧ outcome (find_text_occurrence source_config doc_dog "cat" ratio_default 5 0)
    ≠ Ok (None, None, none)
  ∧ transfer_markup source_config doc_dog ratio_default 5 0 (highlight 1 "cat")
      session_init
    = Ok (transfer_fuzzy 0 (highlight 1 "cat") (page_of doc_dog 0)
            (word_quads [word_at 0 "a"]) session_init)
  ∧ failed_count (transfer_fuzzy 0 (highlight 1 "cat") (page_of doc_dog 0)
                    (word_quads [word_at 0 "a"]) session_init) = 0%nat.
Proof.
  split; [repeat constructor|].
  split; [vm_compute; reflexivity|].
  split; [vm_compute; discriminate|].
  split; vm_compute; reflexivity.
Qed.

(** C7, amended.  When no page of the target document has the phrase and
    no window of any page is within the allowed edit distance of it,
    [find_text_occurrence] returns match type none, and pass 1 records
    the annotation as a failure: the counter grows by one, the record
    (page, text) is appended and the line "Could not find text" is
    printed. *)
Theorem absent_phrase_not_found cfg doc fr fa old annot s a :
  a_type annot ∈ markup_types →
  target_of annot ≠ "" →
  Forall (fun c => search_for c (target_of annot) = []) doc →
  allowed_distance (target_of annot) fr fa = Ok a →
  Forall (fun c => a < Z.of_nat (c_distance c))
         (candidates (target_of annot)
            (length (PyStr.split (target_of annot))) (all_pages doc)) →
  outcome (find_text_occurrence cfg doc (target_of annot) fr fa old)
  = Ok (None, None, none)
  ∧ ∃ s', transfer_markup cfg doc fr fa old annot s = Ok s'
          ∧ failed_count s' = S (failed_count s)
          ∧ failed_annotations s'
            = failed_annotations s ++ [(old + 1, target_of annot)]
          ∧ printed s'
            = printed s ++ [FailNotFound (old + 1)
                              (PyStr.prefix 40 (target_of annot))]
          ∧ new_annot_map s' = new_annot_map s
          ∧ output_annots s' = output_annots s.
Proof.
  intros Htype Hne Habsent Ha Hfar.
  assert (Hnone : outcome (find_text_occurrence cfg doc (target_of annot)
                             fr fa old) = Ok (None, None, none)).
  { apply (find_text_occurrence_none cfg doc (target_of annot) fr fa old a);
      rewrite ?target_of_normalized; done. }
  split; [done|].
  exists (fail_not_found old (target_of annot) s).
  split; [by eapply transfer_markup_not_found|done].
Qed.

(** A long word on [doc_dog]: budget 11, every window at distance 18 or
    more. *)
Lemma absent_phrase_not_found_witness :
  (a_type (highlight 1 "internationalization") ∈ markup_types
   ∧ target_of (highlight 1 "internationalization") ≠ ""
   ∧ Forall (fun c => search_for c
                        (target_of (highlight 1 "internationalization")) = [])
            doc_dog
   ∧ allowed_distance (target_of (highlight 1 "internationalization"))
       ratio_default 5 = Ok 11)
  ∧ outcome (find_text_occurrence source_config doc_dog
               (target_of (highlight 1 "internationalization"))
               ratio_default 5 0)
    = Ok (None, None, none).
Proof.
  assert (H1 : a_type (highlight 1 "internationalization") ∈ markup_types)
    by left.
  assert (H2 : target_of (highlight 1 "internationalization") ≠ "")
    by (vm_compute; discriminate).
  assert (H3 : Forall (fun c => search_for c
                  (target_of (highlight 1 "internationalization")) = [])
                 doc_dog) by (repeat constructor).
  assert (H4 : allowed_distance
                 (target_of (highlight 1 "internationalization"))
                 ratio_default 5 = Ok 11) by (vm_compute; reflexivity).
  assert (H5 : Forall (fun c => 11 < Z.of_nat (c_distance c))
                 (candidates (target_of (highlight 1 "internationalization"))
                    (length (PyStr.split
                       (target_of (highlight 1 "internationalization"))))
                    (all_pages doc_dog)))
    by (vm_compute; repeat constructor).
  split; [exact (conj H1 (conj H2 (conj H3 H4)))|].
  exact (proj1 (absent_phrase_not_found source_config doc_dog ratio_default 5
                  0 (highlight 1 "internationalization") session_init 11
                  H1 H2 H3 H4 H5)).
Defined.

(** ** Decision and effect *)

(** Pass 1 treats an annotation by taking the decision and applying it. *)
Lemma transfer_markup_verdict cfg doc fr fa old annot s :
  transfer_markup cfg doc fr fa old annot s
  = (v ← verdict cfg doc fr fa old annot; Ok (apply_verdict old annot v s)).
Proof.
  unfold transfer_markup, verdict. fold (target_of annot).
  destruct (bool_decide (a_type annot ∈ markup_types)) eqn:Htype; [|done].
  apply bool_decide_eq_true in Htype. simpl.
  destruct (PyStr.truthy (target_of annot)); [|done]. simpl.
  destruct (outcome (find_text_occurrence cfg doc (target_of annot) fr fa old))
    as [[[po qo] mt]|e]; [|done].
  simpl. destruct mt; simpl.
  - destruct po as [page|]; [|done]. simpl.
    fold (page_distance_of page old).
    destruct (page_distance_of page old >? MAX_PAGE_DISTANCE cfg); [done|].
    destruct qo as [quads|]; [|done]. simpl.
    by rewrite add_markup_annot_markup.
  - destruct po as [page|]; [|done]. simpl.
    fold (page_distance_of page old).
    destruct (page_distance_of page old >? MAX_PAGE_DISTANCE cfg); [done|].
    destruct (page_distance_of page old >? FUZZY_MAX_PAGE_DISTANCE cfg);
      [done|].
    destruct qo as [quads|]; [|done]. simpl.
    by rewrite add_markup_annot_markup.
  - done.
Qed.

Lemma transfer_markup_ok cfg doc fr fa old annot s s' :
  transfer_markup cfg doc fr fa old annot s = Ok s' →
  ∃ v, verdict cfg doc fr fa old annot = Ok v ∧ s' = apply_verdict old annot v s.
Proof.
  rewrite transfer_markup_verdict. unfold_bind.
  destruct (verdict cfg doc fr fa old annot) as [v|e]; [|done].
  intros [= <-]. by exists v.
Qed.

Lemma na_type_exact_annot annot a : na_type (exact_annot annot a) = na_type a.
Proof.
  unfold exact_annot.
  destruct (colors annot !! "stroke") as [stroke|]; [|done].
  by destruct (list_truthy stroke).
Qed.

Lemma na_type_fuzzy_annot annot d text a :
  na_type (fuzzy_annot annot d text a) = na_type a.
Proof. reflexivity. Qed.

(** A transfer is decided only for a markup type. *)
Lemma verdict_transfer_markup_type cfg doc fr fa old annot v na :
  verdict cfg doc fr fa old annot = Ok v →
  created_annot old annot v = Some na →
  a_type annot ∈ markup_types ∧ na_type na = a_type annot.
Proof.
  unfold verdict.
  destruct (bool_decide (a_type annot ∈ markup_types)) eqn:Htype.
  - apply bool_decide_eq_true in Htype. intros _ Hc.
    split; [done|]. destruct v; simpl in Hc; try done;
      injection Hc as <-;
      [apply na_type_exact_annot|apply na_type_fuzzy_annot].
  - simpl. intros [= <-]. done.
Qed.

Lemma transfer_reply_cases annot s :
  transfer_reply annot s
  = if a_type annot =? PDF_ANNOT_TEXT then
      match new_annot_map s !! irt_xref annot with
      | Some parent_annot => transfer_note annot parent_annot s
      | None => incr_unsupported s
      end
    else s.
Proof. reflexivity. Qed.

(** ** The two passes as runs over the numbered annotations *)

Lemma run_markups_app cfg doc fr fa l1 l2 s :
  run_markups cfg doc fr fa (l1 ++ l2) s
  = (s' ← run_markups cfg doc fr fa l1 s; run_markups cfg doc fr fa l2 s').
Proof.
  revert s. induction l1 as [|[n a] l1 IH]; intros s; simpl; [done|].
  unfold_bind. destruct (transfer_markup cfg doc fr fa n a s); [|done].
  apply IH.
Qed.

Lemma pass1_page_run cfg doc fr fa n annots s :
  pass1_page cfg doc fr fa n annots s
  = run_markups cfg doc fr fa (map (pair n) annots) s.
Proof.
  revert s. induction annots as [|a annots IH]; intros s; simpl; [done|].
  unfold_bind. destruct (transfer_markup cfg doc fr fa n a s); [|done].
  apply IH.
Qed.

Lemma pass1_from_run cfg doc fr fa n old_pages s :
  pass1_from cfg doc fr fa n old_pages s
  = run_markups cfg doc fr fa (indexed_annots_from n old_pages) s.
Proof.
  revert n s. induction old_pages as [|p rest IH]; intros n s; simpl; [done|].
  rewrite run_markups_app, pass1_page_run. unfold_bind.
  destruct (run_markups cfg doc fr fa (map (pair n) p) s); [|done].
  apply IH.
Qed.

Lemma pass1_run cfg doc fr fa old_doc s :
  pass1 cfg doc fr fa old_doc s
  = run_markups cfg doc fr fa (indexed_annots old_doc) s.
Proof. apply pass1_from_run. Qed.

Lemma indexed_annots_from_snd n old_pages :
  map snd (indexed_annots_from n old_pages) = concat old_pages.
Proof.
  revert n. induction old_pages as [|p rest IH]; intros n; simpl; [done|].
  rewrite map_app, IH, map_map. simpl. by rewrite map_id.
Qed.

Lemma pass2_run old_doc s :
  pass2 old_doc s = run_replies (map snd (indexed_annots old_doc)) s.
Proof.
  unfold indexed_annots. rewrite indexed_annots_from_snd.
  unfold pass2, run_replies. revert s.
  induction old_doc as [|p rest IH]; intros s; simpl; [done|].
  rewrite fold_left_app. apply IH.
Qed.

Lemma transfer_annotations_run cfg old_doc new_doc fr fa s :
  transfer_annotations cfg old_doc new_doc fr fa = Ok s →
  ∃ s1, pass1 cfg new_doc fr fa old_doc session_init = Ok s1
        ∧ run_markups cfg new_doc fr fa (indexed_annots old_doc) session_init
          = Ok s1
        ∧ s = pass2 old_doc s1
        ∧ s = run_replies (map snd (indexed_annots old_doc)) s1.
Proof.
  unfold transfer_annotations. unfold_bind.
  destruct (pass1 cfg new_doc fr fa old_doc session_init) as [s1|e] eqn:E;
    [|done].
  intros [= <-]. exists s1. rewrite <- pass1_run, <- pass2_run. done.
Qed.

(** A property that every decision and every reply preserves holds at
    the end of the passes. *)
Lemma run_markups_inv (P : Session → Prop) cfg doc fr fa l s s' :
  (∀ n a v s, verdict cfg doc fr fa n a = Ok v → P s →
              P (apply_verdict n a v s)) →
  P s → run_markups cfg doc fr fa l s = Ok s' → P s'.
Proof.
  intros Hstep. revert s. induction l as [|[n a] l IH]; intros s Hs; simpl.
  - by intros [= <-].
  - unfold_bind.
    destruct (transfer_markup cfg doc fr fa n a s) as [s1|e] eqn:E; [|done].
    apply transfer_markup_ok in E as (v & Hv & ->).
    apply IH. by apply Hstep.
Qed.

Lemma run_replies_inv (P : Session → Prop) l s :
  (∀ a s, P s → P (transfer_reply a s)) → P s → P (run_replies l s).
Proof.
  intros Hstep. unfold run_replies. revert s.
  induction l as [|a l IH]; intros s Hs; simpl; [done|].
  apply IH. by apply Hstep.
Qed.

(** ** What the counters count *)

Arguments exact_annot : simpl never.
Arguments fuzzy_annot : simpl never.
Arguments reply_note : simpl never.
Arguments is_note : simpl never.

Lemma count_snoc {A} (f : A → bool) l x :
  count f (l ++ [x]) = (count f l + if f x then 1 else 0)%nat.
Proof.
  unfold count. rewrite List.filter_app, length_app. simpl.
  by destruct (f x).
Qed.

Lemma markup_is_not_note annot na :
  a_type annot ∈ markup_types → na_type na = a_type annot →
  is_note na = false.
Proof.
  unfold is_note, markup_types. intros H ->.
  repeat (apply elem_of_cons in H as [->|H]); try done.
  by apply elem_of_nil in H.
Qed.

Lemma counters_inv_init : counters_inv session_init.
Proof. by repeat split. Qed.

Lemma counters_inv_verdict cfg doc fr fa n a v s :
  verdict cfg doc fr fa n a = Ok v →
  counters_inv s → counters_inv (apply_verdict n a v s).
Proof.
  intros Hv (Hf & Ht & Hz & Hn & Hl). unfold counters_inv.
  destruct v; simpl; rewrite ?count_snoc, ?length_app; simpl;
    try (repeat split; lia).
  - destruct (verdict_transfer_markup_type _ _ _ _ _ _ _ _ Hv eq_refl)
      as [Htype Hna]. unfold page_distance_of in Hna.
    rewrite (markup_is_not_note a _ Htype Hna). repeat split; lia.
  - destruct (verdict_transfer_markup_type _ _ _ _ _ _ _ _ Hv eq_refl)
      as [Htype Hna]. unfold page_distance_of in Hna.
    rewrite (markup_is_not_note a _ Htype Hna). repeat split; lia.
Qed.

Lemma counters_inv_reply a s :
  counters_inv s → counters_inv (transfer_reply a s).
Proof.
  intros (Hf & Ht & Hz & Hn & Hl). rewrite transfer_reply_cases.
  destruct (a_type a =? PDF_ANNOT_TEXT); [|done].
  destruct (new_annot_map s !! irt_xref a) as [parent|]; [|done].
  unfold counters_inv. simpl. rewrite ?count_snoc, ?length_app. simpl.
  repeat split; lia.
Qed.

Lemma transfer_annotations_counters cfg old_doc new_doc fr fa s :
  transfer_annotations cfg old_doc new_doc fr fa = Ok s → counters_inv s.
Proof.
  intros (s1 & _ & Hrun & _ & ->)%transfer_annotations_run.
  apply run_replies_inv; [apply counters_inv_reply|].
  eapply run_markups_inv; [|apply counters_inv_init|exact Hrun].
  intros n a v s0. apply counters_inv_verdict.
Qed.

(** ** Failures are recorded and do not stop the pass *)





(** ** The counters of the two passes *)

Lemma pass1_prints_no_reply cfg doc fr fa l s s' :
  run_markups cfg doc fr fa l s = Ok s' →
  count is_ok_reply (printed s) = 0%nat →
  count is_ok_reply (printed s') = 0%nat.
Proof.
  intros Hrun Hs.
  eapply (run_markups_inv (fun s => count is_ok_reply (printed s) = 0%nat));
    [|exact Hs|exact Hrun].
  intros n a v s0 _ H0.
  destruct v; simpl; rewrite ?count_snoc; simpl; lia.
Qed.

Lemma transfer_reply_fuzzy_count a s :
  transferred_fuzzy_count (transfer_reply a s) = transferred_fuzzy_count s.
Proof.
  rewrite transfer_reply_cases.
  destruct (a_type a =? PDF_ANNOT_TEXT); [|done].
  by destruct (new_annot_map s !! irt_xref a).
Qed.

Lemma transfer_reply_exact_lines a s :
  count is_ok_exact (printed (transfer_reply a s))
  = count is_ok_exact (printed s).
Proof.
  rewrite transfer_reply_cases.
  destruct (a_type a =? PDF_ANNOT_TEXT); [|done].
  destruct (new_annot_map s !! irt_xref a); [|done].
  simpl. rewrite count_snoc. simpl. lia.
Qed.


Lemma pass2_keeps_fuzzy l s :
  transferred_fuzzy_count (run_replies l s) = transferred_fuzzy_count s
  ∧ count is_ok_exact (printed (run_replies l s))
    = count is_ok_exact (printed s).
Proof.
  apply (run_replies_inv
           (fun s' => transferred_fuzzy_count s' = transferred_fuzzy_count s
                      ∧ count is_ok_exact (printed s')
                        = count is_ok_exact (printed s))); [|done].
  intros a s0 [H1 H2].
  by rewrite transfer_reply_fuzzy_count, transfer_reply_exact_lines.
Qed.



(** ** Replies and the unsupported counter *)

(** Pass 1 counts every annotation that is not a markup as unsupported,
    a reply included. *)
Lemma pass1_counts_reply_unsupported cfg doc fr fa old annot s :
  a_type annot = PDF_ANNOT_TEXT →
  transfer_markup cfg doc fr fa old annot s = Ok (incr_unsupported s).
Proof.
  intros Ht. apply transfer_markup_unsupported. rewrite Ht.
  unfold markup_types. intros H.
  repeat (apply elem_of_cons in H as [H|H]; [done|]).
  by apply elem_of_nil in H.
Qed.


(** ** The transfer map *)


Lemma apply_verdict_outputs n a v s :
  output_annots (apply_verdict n a v s)
  = output_annots s ++ option_list (created_annot n a v).
Proof. destruct v; simpl; by rewrite ?app_nil_r. Qed.

Lemma transferred_as_verdict cfg doc fr fa n a na :
  transferred_as cfg doc fr fa n a na ↔
  ∃ v, verdict cfg doc fr fa n a = Ok v ∧ created_annot n a v = Some na.
Proof.
  unfold transferred_as. split.
  - intros (s' & (v & Hv & ->)%transfer_markup_ok & Hout).
    exists v. split; [done|]. rewrite apply_verdict_outputs in Hout.
    simpl in Hout. destruct (created_annot n a v); simpl in Hout; congruence.
  - intros (v & Hv & Hc). exists (apply_verdict n a v session_init).
    rewrite transfer_markup_verdict, Hv. split; [done|].
    rewrite apply_verdict_outputs, Hc. done.
Qed.





Lemma transfer_reply_map a s :
  new_annot_map (transfer_reply a s) = new_annot_map s.
Proof.
  rewrite transfer_reply_cases.
  destruct (a_type a =? PDF_ANNOT_TEXT); [|done].
  by destruct (new_annot_map s !! irt_xref a).
Qed.







(** * Further properties of the code *)

(** ** Whitespace *)

Lemma split_from_nil s : ∀ cur,
  PyStr.split_from cur s = [] ↔ cur = "" ∧ all_space s = true.
Proof.
  induction s as [|c s IH]; intros cur; simpl.
  - destruct cur; split; try done. by intros [? _].
  - destruct (PyStr.is_space c) eqn:Hc; simpl.
    + destruct cur; [apply IH|]. split; [done|by intros [? _]].
    + rewrite IH. split; [|by intros [_ ?]].
      intros [H _]. by apply string_app_nonempty in H.
Qed.

Lemma join_nonempty w ws : w ≠ "" → PyStr.join " " (w :: ws) ≠ "".
Proof.
  intros Hw. unfold PyStr.join. destruct ws as [|w' ws]; [done|].
  change (String.concat " " (w :: w' :: ws))
    with (w ++ String " " (String.concat " " (w' :: ws)))%string.
  apply string_app_nonempty.
Qed.

Lemma normalize_empty s : PyStr.normalize s = "" ↔ all_space s = true.
Proof.
  unfold PyStr.normalize, PyStr.split.
  pose proof (split_from_words s "" eq_refl) as Hw.
  pose proof (split_from_nil s "") as Hnil.
  destruct (PyStr.split_from "" s) as [|w ws].
  - split; [intros _; by apply Hnil|done].
  - apply Forall_cons in Hw as [[Hne _] _]. split.
    + intros H. by apply join_nonempty in H.
    + intros H. discriminate (proj2 Hnil (conj eq_refl H)).
Qed.

Lemma split_from_lstrip s :
  PyStr.split_from "" (PyStr.lstrip s) = PyStr.split_from "" s.
Proof.
  induction s as [|c s IH]; [done|]. simpl.
  destruct (PyStr.is_space c) eqn:Hc; [done|]. simpl. by rewrite Hc.
Qed.

Lemma split_from_rstrip s : ∀ cur,
  PyStr.split_from cur (PyStr.rstrip s) = PyStr.split_from cur s.
Proof.
  induction s as [|c s IH]; intros cur; [done|]. simpl.
  destruct (PyStr.rstrip s) as [|c' r] eqn:Hr.
  - destruct (PyStr.is_space c) eqn:Hc; simpl; rewrite ?Hc.
    + destruct cur; rewrite <- IH; done.
    + by rewrite <- IH.
  - simpl. destruct (PyStr.is_space c); [|by rewrite <- IH].
    destruct cur; by rewrite <- IH.
Qed.

Lemma split_strip s : PyStr.split (PyStr.strip s) = PyStr.split s.
Proof.
  unfold PyStr.split, PyStr.strip.
  by rewrite split_from_rstrip, split_from_lstrip.
Qed.

(** X1. The whitespace normalisation [" ".join(s.split())] is idempotent
    and absorbs a [strip()]: the text pass 1 searches for is the
    normalisation of the covered text, the [strip()] before it changes
    nothing, and normalising it again inside [find_text_occurrence] gives
    the same string back. *)
Theorem normalisation_absorbs_strip_and_repeats s :
  PyStr.normalize (PyStr.normalize s) = PyStr.normalize s
  ∧ PyStr.normalize (PyStr.strip s) = PyStr.normalize s
  ∧ PyStr.normalize (PyStr.normalize (PyStr.strip s)) = PyStr.normalize s
  ∧ Forall is_word (PyStr.split s).
Proof.
  assert (H : PyStr.normalize (PyStr.strip s) = PyStr.normalize s).
  { unfold PyStr.normalize. by rewrite split_strip. }
  split; [apply normalize_idempotent|]. split; [exact H|].
  split; [by rewrite normalize_idempotent|].
  by apply split_from_words.
Qed.

Lemma verdict_of_nonempty_target cfg doc fr fa old annot v :
  a_type annot ∈ markup_types → target_of annot ≠ "" →
  verdict cfg doc fr fa old annot = Ok v →
  v ≠ VEmpty ∧ v ≠ VUnsupported.
Proof.
  intros Htype Hne%truthy_nonempty Hv. unfold verdict in Hv.
  rewrite bool_decide_eq_true_2, Hne in Hv by done. simpl in Hv.
  unfold_bind. repeat case_match; by simplify_eq.
Qed.

(** X2. Pass 1 reports "Empty Annotation Text" for a markup annotation
    exactly when the text under it consists of whitespace only (the empty
    text included); the locator is then not consulted, and the failure is
    recorded with the page number and that reason. *)
Theorem empty_annotation_iff_whitespace cfg doc fr fa old annot s :
  a_type annot ∈ markup_types →
  (target_of annot = "" ↔ all_space (covered_text annot) = true)
  ∧ (all_space (covered_text annot) = true →
     transfer_markup cfg doc fr fa old annot s = Ok (fail_empty old s))
  ∧ (transfer_markup cfg doc fr fa old annot s = Ok (fail_empty old s) →
     all_space (covered_text annot) = true).
Proof.
  intros Htype.
  assert (Hiff : target_of annot = "" ↔ all_space (covered_text annot) = true).
  { unfold target_of, PyStr.normalize. rewrite split_strip.
    apply normalize_empty. }
  split; [exact Hiff|]. split.
  - intros H. apply transfer_markup_empty; [done|by apply Hiff].
  - intros Hrun. apply Hiff.
    destruct (decide (target_of annot = "")) as [|Hne]; [done|exfalso].
    apply transfer_markup_ok in Hrun as (v & Hv & Heq).
    destruct (verdict_of_nonempty_target _ _ _ _ _ _ _ Htype Hne Hv)
      as [Hv1 Hv2].
    apply (f_equal printed) in Heq.
    destruct v; try done; simpl in Heq; by apply app_inv_head in Heq.
Qed.

(** A highlight over three blanks on page 0. *)
Lemma empty_annotation_iff_whitespace_witness :
  a_type annot_blank ∈ markup_types
  ∧ all_space (covered_text annot_blank) = true
  ∧ target_of annot_blank = ""
  ∧ transfer_markup source_config doc_fox ratio_default 5 0 annot_blank
      session_init = Ok (fail_empty 0 session_init).
Proof.
  assert (H1 : a_type annot_blank ∈ markup_types) by left.
  assert (H2 : all_space (covered_text annot_blank) = true) by reflexivity.
  destruct (empty_annotation_iff_whitespace source_config doc_fox
              ratio_default 5 0 annot_blank session_init H1)
    as (Hiff & Hrun & _).
  exact (conj H1 (conj H2 (conj (proj2 Hiff H2) (Hrun H2)))).
Defined.

(** ** The local window *)

Lemma length_range lo hi : length (range lo hi) = Z.to_nat (hi - lo).
Proof. unfold range. by rewrite length_map, length_seq. Qed.

Lemma lookup_range lo hi (k : nat) x :
  range lo hi !! k = Some x → x = lo + Z.of_nat k ∧ lo + Z.of_nat k < hi.
Proof.
  unfold range. rewrite list_lookup_fmap.
  destruct (seq 0 (Z.to_nat (hi - lo)) !! k) as [j|] eqn:E; [|done].
  apply lookup_seq in E as [-> Hlt]. simpl. intros [= <-]. lia.
Qed.

(** X3. The local window the code slices out is the set of pages of the
    new document within [LOCAL_PAGE_WINDOW] of the old page number, in
    ascending order.  It has at most [2 * LOCAL_PAGE_WINDOW + 1] pages,
    holds the old page number whenever that is a page of the new
    document, and is empty when the old page lies more than the window
    beyond the end of the new document. *)
Theorem local_window_is_clamped_interval cfg doc anchor :
  let local := local_page_indices cfg doc anchor in
  let W := LOCAL_PAGE_WINDOW cfg in
  (∀ idx, idx ∈ local ↔
          0 <= idx < page_count doc ∧ anchor - W <= idx <= anchor + W)
  ∧ (∀ (i j : nat) x y,
       local !! i = Some x → local !! j = Some y → (i < j)%nat → x < y)
  ∧ (0 <= W → Z.of_nat (length local) <= 2 * W + 1)
  ∧ Z.of_nat (length local) <= page_count doc
  ∧ (0 <= W → 0 <= anchor < page_count doc → anchor ∈ local)
  ∧ (page_count doc + W <= anchor → local = [])
  ∧ (W < 0 → local = []).
Proof.
  intros local W.
  assert (Hin : ∀ idx, idx ∈ local ↔
            0 <= idx < page_count doc ∧ anchor - W <= idx <= anchor + W).
  { intros idx. unfold local, local_page_indices.
    rewrite elem_of_range. fold W. lia. }
  split; [exact Hin|]. split; [|split; [|split; [|split; [|split]]]].
  - intros i j x y Hx Hy Hij. unfold local, local_page_indices in Hx, Hy.
    apply lookup_range in Hx as [-> _]. apply lookup_range in Hy as [-> _].
    lia.
  - intros HW. unfold local, local_page_indices. rewrite length_range.
    fold W. unfold page_count. lia.
  - unfold local, local_page_indices. rewrite length_range.
    fold W. unfold page_count. lia.
  - intros HW Ha. apply Hin. lia.
  - intros Hfar. unfold local, local_page_indices. apply range_nil.
    fold W. lia.
  - intros HW. unfold local, local_page_indices. apply range_nil.
    fold W. lia.
Qed.

(** ** What the locator returns *)

Lemma page_candidates_page text n page c :
  c ∈ page_candidates text n page → c_page c = page.
Proof.
  unfold page_candidates.
  destruct (length (get_words (content page)) <? n)%nat;
    [by intros ?%elem_of_nil|].
  by intros (i & -> & _)%list_elem_of_fmap.
Qed.

Lemma load_pages_numbers doc idxs :
  Forall (fun idx => 0 <= idx < page_count doc) idxs →
  ∃ pages, load_pages doc idxs = Ok pages
           ∧ ∀ page, page ∈ pages →
                     0 <= number page < page_count doc
                     ∧ load_page doc (number page) = Ok page.
Proof.
  induction 1 as [|idx idxs Hidx _ (pages & Hpages & Hall)].
  - exists []. split; [done|]. intros page Hin. by apply elem_of_nil in Hin.
  - destruct (load_page_valid doc idx Hidx) as (c & _ & Hload).
    exists (mkPage idx c :: pages). simpl. rewrite Hload, Hpages.
    split; [done|].
    intros page [->|Hin]%elem_of_cons; [done|by apply Hall].
Qed.

(** Over pages of the document a fuzzy pass raises only with its budget,
    and the page it returns is a page of the document. *)
Lemma find_best_result doc text ratio base idxs a :
  Forall (fun idx => 0 <= idx < page_count doc) idxs →
  allowed_distance text ratio base = Ok a →
  ∃ r, find_best_fuzzy_match_in_pages doc text ratio base idxs = Ok r
       ∧ (r = (None, None)
          ∨ ∃ page q quads,
              r = (Some page, Some (q :: quads))
              ∧ 0 <= number page < page_count doc
              ∧ load_page doc (number page) = Ok page).
Proof.
  intros Hvalid Ha.
  destruct (Nat.eq_dec (length (PyStr.split text)) 0%nat) as [Hn|Hn].
  { exists (None, None). rewrite find_best_no_words by done. by split; [|left]. }
  destruct (load_pages_numbers doc idxs Hvalid) as (pages & Hpages & Hall).
  pose proof (find_best_fuzzy_match_spec doc text ratio base idxs pages a
                Hn Ha Hpages) as Hspec.
  destruct (candidates text (length (PyStr.split text)) pages)
    as [|c0 cs] eqn:E.
  { exists (None, None). rewrite Hspec. by split; [|left]. }
  destruct Hspec as (c & Hmin & Hres).
  eexists. split; [exact Hres|].
  destruct (Z.of_nat (c_distance c) <=? a); [|by left]. right.
  apply first_minimum_elem in Hmin. rewrite <- E in Hmin.
  assert (Hlen : length (c_words c) = length (PyStr.split text))
    by (by eapply candidates_length).
  apply elem_of_candidates in Hmin as (page & Hp & Hc).
  rewrite (page_candidates_page _ _ _ _ Hc).
  destruct (c_words c) as [|w ws]; [simpl in Hlen; lia|].
  exists page, (rect_quad (w_rect w)), (word_quads ws).
  split; [done|]. by apply Hall.
Qed.

Lemma split_nonempty phrase :
  PyStr.normalize phrase = phrase → phrase ≠ "" →
  length (PyStr.split phrase) ≠ 0%nat.
Proof.
  intros Hnorm Hne Hlen. apply Hne. rewrite <- Hnorm.
  unfold PyStr.normalize. by destruct (PyStr.split phrase).
Qed.

Lemma first_exact_present doc phrase idxs idx c :
  Forall (fun idx => 0 <= idx < page_count doc) idxs →
  idx ∈ idxs → nth_error doc (Z.to_nat idx) = Some c →
  search_for c phrase ≠ [] →
  ∃ page quads, first_exact doc phrase idxs = Some (page, quads).
Proof.
  intros Hvalid Hin Hc Hhit.
  destruct (first_exact doc phrase idxs) as [[page quads]|] eqn:E;
    [by exists page, quads|].
  exfalso. apply Hhit.
  by apply (proj1 (first_exact_none doc phrase idxs Hvalid) E idx c).
Qed.

(** The result of the locator is one of two shapes: nothing, or a page of
    the document with at least one quad. *)
Lemma find_text_occurrence_shape cfg doc text fr fa old po qo mt :
  outcome (find_text_occurrence cfg doc text fr fa old) = Ok (po, qo, mt) →
  (mt = none ∧ po = None ∧ qo = None)
  ∨ (mt ≠ none
     ∧ ∃ page q quads,
         po = Some page ∧ qo = Some (q :: quads)
         ∧ 0 <= number page < page_count doc
         ∧ load_page doc (number page) = Ok page).
Proof.
  destruct (decide (PyStr.normalize text = "")) as [Hempty|Hne].
  { unfold find_text_occurrence. rewrite Hempty. simpl.
    intros [= <- <- <-]. by left. }
  destruct (find_text_occurrence_run cfg doc text fr fa old Hne)
    as (k1 & k2 & ->).
  pose proof (local_window_valid cfg doc old) as Hlocal.
  pose proof (all_page_indices_valid doc) as Hall.
  destruct (first_exact doc _ (local_window cfg doc old))
    as [[page quads]|] eqn:E1.
  { simpl. intros [= <- <- <-]. right. split; [done|].
    destruct (first_exact_some _ _ _ _ _ Hlocal E1) as (Hin & Hload & _ & Ht).
    destruct quads as [|q quads]; [done|]. exists page, q, quads.
    rewrite Forall_forall in Hlocal. by repeat split; try apply Hlocal. }
  destruct (first_exact doc _ (all_page_indices doc))
    as [[page quads]|] eqn:E2.
  { simpl. intros [= <- <- <-]. right. split; [done|].
    destruct (first_exact_some _ _ _ _ _ Hall E2) as (Hin & Hload & _ & Ht).
    destruct quads as [|q quads]; [done|]. exists page, q, quads.
    rewrite Forall_forall in Hall. by repeat split; try apply Hall. }
  simpl. unfold fuzzy_tiers_run.
  set (phrase := PyStr.normalize text).
  destruct (allowed_distance phrase fr fa) as [a|e] eqn:Ea.
  2:{ rewrite (find_best_budget_raises _ _ _ _ _ e); [done| |done].
      apply split_nonempty; [apply normalize_idempotent|done]. }
  destruct (find_best_result doc phrase fr fa _ a Hlocal Ea)
    as (r1 & -> & [->|(p1 & q1 & qs1 & -> & Hv1 & Hl1)]); simpl.
  2:{ intros [= <- <- <-]. right. split; [done|]. by exists p1, q1, qs1. }
  destruct (find_best_result doc phrase fr fa _ a Hall Ea)
    as (r2 & -> & [->|(p2 & q2 & qs2 & -> & Hv2 & Hl2)]); simpl.
  - intros [= <- <- <-]. by left.
  - intros [= <- <- <-]. right. split; [done|]. by exists p2, q2, qs2.
Qed.

Lemma absent_everywhere doc phrase :
  first_exact doc phrase (all_page_indices doc) = None →
  Forall (fun c => search_for c phrase = []) doc.
Proof.
  intros E. apply Forall_forall. intros c Hc.
  apply list_elem_of_lookup in Hc as [i Hi].
  rewrite <- nth_error_lookup in Hi.
  apply (proj1 (first_exact_none doc phrase _ (all_page_indices_valid doc)) E
           (Z.of_nat i) c); [|by rewrite Nat2Z.id].
  unfold all_page_indices. apply elem_of_range.
  assert (i < length doc)%nat by (apply nth_error_Some; congruence).
  unfold page_count. lia.
Qed.

(** X4. Whatever the locator returns without raising is well formed:
    with match type "none" it carries no page and no quads, and with
    "exact" or "fuzzy" it carries a page of the new document (one that
    [load_page] gives for its own number) and at least one quad.  This is
    what lets pass 1 read [new_page.number] after testing the match type
    alone. *)
Theorem located_result_is_well_formed cfg doc text fr fa old po qo mt :
  outcome (find_text_occurrence cfg doc text fr fa old) = Ok (po, qo, mt) →
  (mt = none ∧ po = None ∧ qo = None)
  ∨ (mt ≠ none
     ∧ ∃ page q quads,
         po = Some page ∧ qo = Some (q :: quads)
         ∧ 0 <= number page < page_count doc
         ∧ load_page doc (number page) = Ok page).
Proof. apply find_text_occurrence_shape. Qed.

Lemma located_result_is_well_formed_witness :
  outcome (find_text_occurrence source_config doc_dog "cat" ratio_default 5 0)
  = Ok (Some (page_of doc_dog 0), Some (word_quads [word_at 0 "a"]), fuzzy)
  ∧ ((fuzzy = none ∧ Some (page_of doc_dog 0) = None
      ∧ Some (word_quads [word_at 0 "a"]) = None)
     ∨ (fuzzy ≠ none
        ∧ ∃ page q quads,
            Some (page_of doc_dog 0) = Some page
            ∧ Some (word_quads [word_at 0 "a"]) = Some (q :: quads)
            ∧ 0 <= number page < page_count doc_dog
            ∧ load_page doc_dog (number page) = Ok page)).
Proof.
  assert (H : outcome (find_text_occurrence source_config doc_dog "cat"
                         ratio_default 5 0)
              = Ok (Some (page_of doc_dog 0),
                    Some (word_quads [word_at 0 "a"]), fuzzy))
    by (vm_compute; reflexivity).
  exact (conj H (located_result_is_well_formed _ _ _ _ _ _ _ _ _ H)).
Defined.

(** How the locator can raise. *)
Lemma find_text_occurrence_raises cfg doc text fr fa old e :
  outcome (find_text_occurrence cfg doc text fr fa old) = Raise e ↔
  PyStr.normalize text ≠ ""
  ∧ Forall (fun c => search_for c (PyStr.normalize text) = []) doc
  ∧ allowed_distance (PyStr.normalize text) fr fa = Raise e.
Proof.
  set (phrase := PyStr.normalize text).
  destruct (decide (phrase = "")) as [Hempty|Hne].
  { unfold find_text_occurrence. fold phrase. rewrite Hempty. simpl.
    split; [done|]. by intros [? _]. }
  assert (Hwords : length (PyStr.split phrase) ≠ 0%nat)
    by (apply split_nonempty; [apply normalize_idempotent|done]).
  destruct (find_text_occurrence_run cfg doc text fr fa old Hne)
    as (k1 & k2 & ->). fold phrase.
  pose proof (local_window_valid cfg doc old) as Hlocal.
  pose proof (all_page_indices_valid doc) as Hall.
  destruct (first_exact doc phrase (local_window cfg doc old))
    as [[page quads]|] eqn:E1.
  { simpl. split; [done|]. intros (_ & Habs & _).
    rewrite (first_exact_absent _ _ _ Hlocal Habs) in E1. done. }
  destruct (first_exact doc phrase (all_page_indices doc))
    as [[page quads]|] eqn:E2.
  { simpl. split; [done|]. intros (_ & Habs & _).
    rewrite (first_exact_absent _ _ _ Hall Habs) in E2. done. }
  simpl. unfold fuzzy_tiers_run.
  destruct (allowed_distance phrase fr fa) as [a|e'] eqn:Ea.
  - destruct (find_best_result doc phrase fr fa _ a Hlocal Ea)
      as (r1 & -> & _).
    destruct (returns_match (Ok r1)); simpl; [split; [done|by intros (_&_&?)]|].
    destruct (find_best_result doc phrase fr fa _ a Hall Ea)
      as (r2 & -> & _).
    simpl. split; [done|by intros (_&_&?)].
  - rewrite (find_best_budget_raises _ _ _ _ _ e' Hwords Ea). simpl.
    split.
    + intros [= ->]. split; [done|]. split; [by apply absent_everywhere|done].
    + intros (_ & _ & [= ->]). done.
Qed.

(** X5. The locator raises in one situation only: the phrase is not
    empty, no page of the new document has it, and the fuzzy budget
    [int(len(phrase) * ratio)] cannot be computed (an infinite or NaN
    product); the exception is then that of [int].  In particular a call
    never fails on loading a page, and with a budget that can be
    computed it always returns. *)
Theorem locator_raises_only_with_budget cfg doc text fr fa old :
  let phrase := PyStr.normalize text in
  let run := outcome (find_text_occurrence cfg doc text fr fa old) in
  (∀ e, run = Raise e ↔
        phrase ≠ ""
        ∧ Forall (fun c => search_for c phrase = []) doc
        ∧ allowed_distance phrase fr fa = Raise e)
  ∧ (∀ e, run = Raise e → e = OverflowError ∨ e = ValueError)
  ∧ (raises (allowed_distance phrase fr fa) = false → raises run = false).
Proof.
  intros phrase run. split; [|split].
  - intros e. apply find_text_occurrence_raises.
  - intros e (_ & _ & Ha)%find_text_occurrence_raises.
    unfold allowed_distance in Ha. unfold_bind.
    destruct (PyFloat.mul_int _ _) as [q|neg|]; simpl in Ha.
    + done.
    + injection Ha as <-. by left.
    + injection Ha as <-. by right.
  - intros Hok. destruct run as [loc|e] eqn:E; [done|].
    apply find_text_occurrence_raises in E as (_ & _ & Ha).
    fold phrase in Ha. by rewrite Ha in Hok.
Qed.

Lemma search_calls_no_fuzzy phrase idxs :
  count is_fuzzy_call (search_calls phrase idxs) = 0%nat.
Proof.
  unfold count, search_calls. induction idxs as [|i idxs IH]; [done|].
  simpl. exact IH.
Qed.

Lemma count_app {A} (f : A → bool) l1 l2 :
  count f (l1 ++ l2) = (count f l1 + count f l2)%nat.
Proof. unfold count. by rewrite List.filter_app, length_app. Qed.

Lemma length_search_calls phrase idxs :
  length (search_calls phrase idxs) = length idxs.
Proof. apply length_map. Qed.

(** Some page has the phrase: the result is exact. *)
Lemma find_text_occurrence_exact_anywhere cfg doc text fr fa old c :
  let phrase := PyStr.normalize text in
  let run := find_text_occurrence cfg doc text fr fa old in
  phrase ≠ "" →
  c ∈ doc →
  search_for c phrase ≠ [] →
  ∃ page quads,
    outcome run = Ok (Some page, Some quads, exact)
    ∧ quads = search_for (content page) phrase
    ∧ quads ≠ []
    ∧ load_page doc (number page) = Ok page
    ∧ count is_fuzzy_call (calls run) = 0%nat.
Proof.
  intros phrase run Hne Hc Hhit.
  destruct (find_text_occurrence_run cfg doc text fr fa old Hne)
    as (k1 & k2 & Hrun). fold phrase run in Hrun.
  pose proof (local_window_valid cfg doc old) as Hlocal.
  pose proof (all_page_indices_valid doc) as Hall.
  destruct (first_exact doc phrase (local_window cfg doc old))
    as [[page quads]|] eqn:E1.
  { destruct (first_exact_some _ _ _ _ _ Hlocal E1) as (_ & Hload & Hq & Ht).
    exists page, quads. rewrite Hrun. simpl.
    repeat split; try done; [by intros ->|apply search_calls_no_fuzzy]. }
  destruct (first_exact doc phrase (all_page_indices doc))
    as [[page quads]|] eqn:E2.
  { destruct (first_exact_some _ _ _ _ _ Hall E2) as (_ & Hload & Hq & Ht).
    exists page, quads. rewrite Hrun. simpl.
    repeat split; try done; [by intros ->|].
    by rewrite count_app, !search_calls_no_fuzzy. }
  exfalso. apply absent_everywhere in E2. rewrite Forall_forall in E2.
  by apply Hhit, E2.
Qed.

(** X7. An exact occurrence anywhere in the new document wins: when some
    page has the phrase the locator returns an exact match whose quads
    are the search result of the returned page, without calling the
    fuzzy matcher and without raising, whatever the ratio and the
    allowance are (a NaN ratio included). *)
Theorem exact_match_anywhere_wins cfg doc text fr fa old c :
  let phrase := PyStr.normalize text in
  let run := find_text_occurrence cfg doc text fr fa old in
  phrase ≠ "" →
  c ∈ doc →
  search_for c phrase ≠ [] →
  ∃ page quads,
    outcome run = Ok (Some page, Some quads, exact)
    ∧ quads = search_for (content page) phrase
    ∧ quads ≠ []
    ∧ load_page doc (number page) = Ok page
    ∧ count is_fuzzy_call (calls run) = 0%nat.
Proof. apply find_text_occurrence_exact_anywhere. Qed.

(** The fox is found on [doc_fox] although the ratio is a NaN. *)
Lemma exact_match_anywhere_wins_witness :
  (PyStr.normalize "quick  brown" ≠ ""
   ∧ text_page "the quick brown fox" ∈ doc_fox
   ∧ search_for (text_page "the quick brown fox")
       (PyStr.normalize "quick  brown") ≠ [])
  ∧ ∃ page quads,
      outcome (find_text_occurrence source_config doc_fox "quick  brown"
                 PyFloat.NaN 5 0) = Ok (Some page, Some quads, exact)
      ∧ quads ≠ []
      ∧ count is_fuzzy_call
          (calls (find_text_occurrence source_config doc_fox "quick  brown"
                    PyFloat.NaN 5 0)) = 0%nat.
Proof.
  assert (H1 : PyStr.normalize "quick  brown" ≠ "")
    by (vm_compute; discriminate).
  assert (H2 : text_page "the quick brown fox" ∈ doc_fox) by left.
  assert (H3 : search_for (text_page "the quick brown fox")
                 (PyStr.normalize "quick  brown") ≠ [])
    by (vm_compute; discriminate).
  split; [exact (conj H1 (conj H2 H3))|].
  destruct (exact_match_anywhere_wins source_config doc_fox "quick  brown"
              PyFloat.NaN 5 0 _ H1 H2 H3)
    as (page & quads & Hout & _ & Hq & _ & Hcalls).
  exists page, quads. exact (conj Hout (conj Hq Hcalls)).
Defined.

(** X12. A search calls the fuzzy matcher at most twice, and only after
    the exact search has failed on every page of the document; it makes
    no more calls than the schedule has (one exact search per page of the
    local window, one per page of the document, two fuzzy passes) and
    none at all for a phrase that is empty once normalised. *)
Theorem fuzzy_matcher_called_at_most_twice cfg doc text fr fa old :
  let phrase := PyStr.normalize text in
  let run := find_text_occurrence cfg doc text fr fa old in
  (count is_fuzzy_call (calls run) ≤ 2)%nat
  ∧ (count is_fuzzy_call (calls run) ≠ 0%nat →
     phrase ≠ "" ∧ Forall (fun c => search_for c phrase = []) doc)
  ∧ (length (calls run)
     ≤ length (local_page_indices cfg doc old) + length doc + 2)%nat
  ∧ (phrase = "" → calls run = []).
Proof.
  intros phrase run.
  destruct (decide (phrase = "")) as [Hempty|Hne].
  { assert (Hcalls : calls run = []).
    { unfold run, find_text_occurrence. fold phrase. by rewrite Hempty. }
    rewrite Hcalls. change (count is_fuzzy_call []) with 0%nat. simpl.
    split; [lia|]. split; [done|]. split; [lia|done]. }
  destruct (find_text_occurrence_run cfg doc text fr fa old Hne)
    as (k1 & k2 & Hrun). fold phrase run in Hrun.
  rewrite local_page_indices_window.
  assert (Hall : length (all_page_indices doc) = length doc).
  { unfold all_page_indices, page_count. rewrite length_range. lia. }
  destruct (first_exact doc phrase (local_window cfg doc old))
    as [[page quads]|] eqn:E1.
  { rewrite Hrun. simpl. rewrite search_calls_no_fuzzy, length_search_calls.
    rewrite length_take. split; [lia|]. split; [done|]. split; [lia|done]. }
  destruct (first_exact doc phrase (all_page_indices doc))
    as [[page quads]|] eqn:E2.
  { rewrite Hrun. simpl.
    rewrite count_app, !search_calls_no_fuzzy, length_app.
    rewrite !length_search_calls, length_take.
    split; [lia|]. split; [done|]. split; [lia|done]. }
  rewrite Hrun. simpl.
  rewrite !count_app, !search_calls_no_fuzzy, !length_app.
  rewrite !length_search_calls, Hall.
  assert (Hf : (count is_fuzzy_call
                  (calls (fuzzy_tiers_run doc phrase fr fa
                            (local_window cfg doc old) (all_page_indices doc)))
                ≤ 2
                ∧ length (calls (fuzzy_tiers_run doc phrase fr fa
                            (local_window cfg doc old) (all_page_indices doc)))
                  ≤ 2)%nat).
  { unfold fuzzy_tiers_run, count.
    destruct (find_best_fuzzy_match_in_pages doc phrase fr fa
                (local_window cfg doc old)) as [r|e]; [|simpl; lia].
    destruct (returns_match (Ok r)); [simpl; lia|].
    destruct (find_best_fuzzy_match_in_pages doc phrase fr fa
                (all_page_indices doc)); simpl; lia. }
  split; [lia|]. split; [|split; [lia|done]].
  intros _. split; [done|by apply absent_everywhere].
Qed.

(** ** Which page an exact match is on *)

Lemma first_exact_range_least doc phrase : ∀ (n : nat) lo hi page quads,
  n = Z.to_nat (hi - lo) → 0 <= lo → hi <= page_count doc →
  first_exact doc phrase (range lo hi) = Some (page, quads) →
  lo <= number page < hi
  ∧ ∀ idx, lo <= idx < number page → page_hits doc phrase idx = false.
Proof.
  induction n as [|n IH]; intros lo hi page quads Hn Hlo Hhi.
  - by rewrite range_nil by lia.
  - rewrite range_cons by lia.
    destruct (load_page_valid doc lo) as (c & _ & Hload); [lia|].
    rewrite (first_exact_cons _ _ _ _ _ Hload).
    destruct (list_truthy (search_for c phrase)) eqn:E.
    + intros [= <- <-]. simpl. split; [lia|]. intros idx. lia.
    + intros Hrest.
      destruct (IH (lo + 1) hi page quads) as [Hp Hleast]; [lia..|done|].
      split; [lia|]. intros idx Hidx.
      destruct (decide (idx = lo)) as [->|Hne].
      * by rewrite (page_hits_valid _ _ _ _ Hload).
      * apply Hleast. lia.
Qed.

Lemma first_exact_none_hits doc phrase idxs :
  first_exact doc phrase idxs = None →
  Forall (fun idx => 0 <= idx < page_count doc) idxs →
  ∀ idx, idx ∈ idxs → page_hits doc phrase idx = false.
Proof.
  intros E Hvalid idx Hin.
  rewrite Forall_forall in Hvalid.
  destruct (load_page_valid doc idx (Hvalid idx Hin)) as (c & Hc & Hload).
  rewrite (page_hits_valid _ _ _ _ Hload).
  rewrite (proj1 (first_exact_none doc phrase idxs
                    (proj2 (Forall_forall _ _) Hvalid)) E idx c Hin Hc).
  done.
Qed.

Lemma first_exact_hits doc phrase idxs page quads :
  Forall (fun idx => 0 <= idx < page_count doc) idxs →
  first_exact doc phrase idxs = Some (page, quads) →
  page_hits doc phrase (number page) = true.
Proof.
  intros Hvalid E.
  destruct (first_exact_some _ _ _ _ _ Hvalid E) as (_ & Hload & -> & Ht).
  unfold page_hits. by rewrite Hload.
Qed.

Lemma fuzzy_tiers_run_not_exact doc phrase fr fa local all po qo :
  outcome (fuzzy_tiers_run doc phrase fr fa local all) ≠ Ok (po, qo, exact).
Proof.
  unfold fuzzy_tiers_run.
  destruct (find_best_fuzzy_match_in_pages doc phrase fr fa local) as [r|e];
    [|done].
  destruct (returns_match (Ok r)); [done|].
  destruct (find_best_fuzzy_match_in_pages doc phrase fr fa all) as [r'|e];
    [|done].
  by destruct (returns_match (Ok r')).
Qed.

(** X6. An exact match is on the lowest-numbered page that has the
    phrase, first among the pages of the local window and, when the
    window has none, among all pages: the exact tiers scan in ascending
    page order, so a page of the window below the old page is preferred
    to the old page itself. *)
Theorem exact_match_is_lowest_page cfg doc text fr fa old page qo :
  let phrase := PyStr.normalize text in
  outcome (find_text_occurrence cfg doc text fr fa old)
  = Ok (Some page, qo, exact) →
  page_hits doc phrase (number page) = true
  ∧ (in_local_window cfg old (number page) →
     ∀ idx, in_local_window cfg old idx → 0 <= idx < number page →
            page_hits doc phrase idx = false)
  ∧ (¬ in_local_window cfg old (number page) →
     ∀ idx, 0 <= idx < page_count doc →
            in_local_window cfg old idx ∨ idx < number page →
            page_hits doc phrase idx = false).
Proof.
  intros phrase.
  destruct (decide (phrase = "")) as [Hempty|Hne].
  { unfold find_text_occurrence. fold phrase. by rewrite Hempty. }
  destruct (find_text_occurrence_run cfg doc text fr fa old Hne)
    as (k1 & k2 & ->). fold phrase.
  pose proof (local_window_valid cfg doc old) as Hlocal.
  pose proof (all_page_indices_valid doc) as Hall.
  assert (Hwin : ∀ idx, idx ∈ local_window cfg doc old ↔
                   0 <= idx < page_count doc ∧ in_local_window cfg old idx).
  { intros idx. unfold local_window. rewrite list_elem_of_filter.
    unfold all_page_indices. rewrite elem_of_range. tauto. }
  destruct (first_exact doc phrase (local_window cfg doc old))
    as [[p quads]|] eqn:E1.
  - simpl. intros [= -> _].
    pose proof (first_exact_hits _ _ _ _ _ Hlocal E1) as Hhit.
    destruct (first_exact_some _ _ _ _ _ Hlocal E1) as (Hin & _).
    apply Hwin in Hin as [Hv Hw].
    rewrite <- local_page_indices_window in E1.
    unfold local_page_indices in E1.
    destruct (first_exact_range_least doc phrase _
                (Z.max 0 (old - LOCAL_PAGE_WINDOW cfg))
                (Z.min (page_count doc) (old + LOCAL_PAGE_WINDOW cfg + 1))
                page quads eq_refl) as [_ Hleast]; [lia|lia|exact E1|].
    split; [done|]. split; [|done].
    intros _ idx Hidx Hlt. apply Hleast. unfold in_local_window in Hidx. lia.
  - destruct (first_exact doc phrase (all_page_indices doc))
      as [[p quads]|] eqn:E2.
    + simpl. intros [= -> _].
      pose proof (first_exact_hits _ _ _ _ _ Hall E2) as Hhit.
      destruct (first_exact_some _ _ _ _ _ Hall E2) as (Hin & _).
      unfold all_page_indices in Hin. apply elem_of_range in Hin.
      assert (Hout : ¬ in_local_window cfg old (number page)).
      { intros Hw.
        assert (Hl : number page ∈ local_window cfg doc old)
          by (by apply Hwin).
        rewrite (first_exact_none_hits _ _ _ E1 Hlocal _ Hl) in Hhit. done. }
      unfold all_page_indices in E2.
      destruct (first_exact_range_least doc phrase _ 0 (page_count doc)
                  page quads eq_refl) as [_ Hleast]; [lia|lia|exact E2|].
      split; [done|]. split; [done|].
      intros _ idx Hv [Hw|Hlt].
      * apply (first_exact_none_hits _ _ _ E1 Hlocal). by apply Hwin.
      * apply Hleast. lia.
    + simpl. intros H. by apply fuzzy_tiers_run_not_exact in H.
Qed.

(** On [doc_two_foxes] an annotation of page 9 is matched on page 5,
    although page 9 has the phrase as well. *)
Lemma exact_match_is_lowest_page_witness :
  outcome (find_text_occurrence source_config doc_two_foxes "quick brown"
             ratio_default 5 9)
  = Ok (Some (page_of doc_two_foxes 5), Some fox_quads, exact)
  ∧ page_hits doc_two_foxes (PyStr.normalize "quick brown") 9 = true
  ∧ page_hits doc_two_foxes (PyStr.normalize "quick brown")
      (number (page_of doc_two_foxes 5)) = true
  ∧ page_hits doc_two_foxes (PyStr.normalize "quick brown") 4 = false.
Proof.
  assert (H : outcome (find_text_occurrence source_config doc_two_foxes
                         "quick brown" ratio_default 5 9)
              = Ok (Some (page_of doc_two_foxes 5), Some fox_quads, exact))
    by (vm_compute; reflexivity).
  destruct (exact_match_is_lowest_page _ _ _ _ _ _ _ _ H) as (Hhit & Hlow & _).
  split; [exact H|]. split; [vm_compute; reflexivity|]. split; [exact Hhit|].
  apply Hlow.
  - vm_compute. split; discriminate.
  - vm_compute. split; discriminate.
  - vm_compute. split; [discriminate|reflexivity].
Defined.

(** ** What the gates let through *)

Lemma page_hits_present doc phrase c :
  c ∈ doc → search_for c phrase ≠ [] →
  ∃ idx, 0 <= idx < page_count doc ∧ page_hits doc phrase idx = true.
Proof.
  intros Hc Hhit. apply list_elem_of_lookup in Hc as [i Hi].
  rewrite <- nth_error_lookup in Hi.
  assert (i < length doc)%nat by (apply nth_error_Some; congruence).
  exists (Z.of_nat i). split; [unfold page_count; lia|].
  rewrite (page_hits_valid doc phrase (Z.of_nat i) c).
  - by destruct (search_for c phrase).
  - apply load_page_nth; [lia|by rewrite Nat2Z.id].
Qed.



Lemma na_fields_exact_annot annot a :
  na_page (exact_annot annot a) = na_page a
  ∧ na_quads (exact_annot annot a) = na_quads a
  ∧ na_point (exact_annot annot a) = na_point a.
Proof.
  unfold exact_annot.
  destruct (colors annot !! "stroke") as [stroke|]; [|done].
  by destruct (list_truthy stroke).
Qed.

(** What a transfer decision rests on. *)
Lemma verdict_transfer_located cfg doc fr fa old annot v page quads :
  verdict cfg doc fr fa old annot = Ok v →
  v = VExact page quads ∨ v = VFuzzy page quads →
  ∃ mt,
    outcome (find_text_occurrence cfg doc (target_of annot) fr fa old)
    = Ok (Some page, Some quads, mt)
    ∧ (v = VExact page quads → mt = exact)
    ∧ (v = VFuzzy page quads → mt = fuzzy)
    ∧ page_distance_of page old <= MAX_PAGE_DISTANCE cfg
    ∧ (mt = fuzzy → page_distance_of page old <= FUZZY_MAX_PAGE_DISTANCE cfg).
Proof.
  intros Hv Hcase. unfold verdict in Hv.
  destruct (bool_decide (a_type annot ∈ markup_types));
    [|destruct Hcase; simplify_eq]. simpl in Hv.
  destruct (PyStr.truthy (target_of annot));
    [|destruct Hcase; simplify_eq]. simpl in Hv.
  destruct (outcome (find_text_occurrence cfg doc (target_of annot) fr fa old))
    as [[[po qo] mt]|e]; [|done].
  simpl in Hv. destruct mt; simpl in Hv.
  - destruct po as [p|]; [|done]. simpl in Hv.
    destruct (Z.gtb_spec (page_distance_of p old) (MAX_PAGE_DISTANCE cfg));
      [destruct Hcase; simplify_eq|].
    destruct qo as [q|]; [|done]. simpl in Hv.
    exists exact. destruct Hcase; simplify_eq. by repeat split.
  - destruct po as [p|]; [|done]. simpl in Hv.
    destruct (Z.gtb_spec (page_distance_of p old) (MAX_PAGE_DISTANCE cfg));
      [destruct Hcase; simplify_eq|].
    destruct (Z.gtb_spec (page_distance_of p old)
                (FUZZY_MAX_PAGE_DISTANCE cfg));
      [destruct Hcase; simplify_eq|].
    destruct qo as [q|]; [|done]. simpl in Hv.
    exists fuzzy. destruct Hcase; simplify_eq. by repeat split.
  - destruct Hcase; simplify_eq.
Qed.

(** X9. Every markup that pass 1 creates is of the type of its source
    annotation, lies on the page the locator returned with the quads it
    returned (at least one), on a page of the new document no further
    than [MAX_PAGE_DISTANCE] from the old page, and for a fuzzy match no
    further than [FUZZY_MAX_PAGE_DISTANCE]. *)
Theorem transferred_markup_is_near cfg doc fr fa old annot na :
  transferred_as cfg doc fr fa old annot na →
  a_type annot ∈ markup_types
  ∧ na_type na = a_type annot
  ∧ na_point na = None
  ∧ na_quads na ≠ []
  ∧ 0 <= na_page na < page_count doc
  ∧ Z.abs (na_page na - old) <= MAX_PAGE_DISTANCE cfg
  ∧ ∃ page mt,
      outcome (find_text_occurrence cfg doc (target_of annot) fr fa old)
      = Ok (Some page, Some (na_quads na), mt)
      ∧ mt ≠ none
      ∧ na_page na = number page
      ∧ (mt = fuzzy →
         Z.abs (na_page na - old) <= FUZZY_MAX_PAGE_DISTANCE cfg).
Proof.
  intros (v & Hv & Hc)%transferred_as_verdict.
  destruct (verdict_transfer_markup_type _ _ _ _ _ _ _ _ Hv Hc)
    as [Htype Hna].
  assert (∃ page quads, (v = VExact page quads ∨ v = VFuzzy page quads)
            ∧ na_page na = number page ∧ na_quads na = quads
            ∧ na_point na = None) as (page & quads & Hcase & Hp & Hq & Hpt).
  { destruct v; simpl in Hc; try done; injection Hc as <-;
      exists new_page, quads.
    - split; [by left|]. by destruct (na_fields_exact_annot annot
                              (new_markup annot new_page quads))
                              as (-> & -> & ->).
    - split; [by right|done]. }
  destruct (verdict_transfer_located _ _ _ _ _ _ _ _ _ Hv Hcase)
    as (mt & Hout & He & Hf & Hmax & Hfz).
  assert (Hmt : mt ≠ none).
  { destruct Hcase as [Hx|Hx]; [rewrite (He Hx)|rewrite (Hf Hx)]; done. }
  destruct (find_text_occurrence_shape _ _ _ _ _ _ _ _ _ Hout)
    as [[? _]|(_ & p & q & qs & [= <-] & [= ->] & Hvalid & _)]; [done|].
  unfold page_distance_of in Hmax, Hfz. rewrite Hp, Hq.
  split; [done|]. split; [done|]. split; [done|]. split; [done|].
  split; [lia|]. split; [lia|].
  exists page, mt. split; [done|]. split; [done|]. split; [done|]. exact Hfz.
Qed.

(** The highlight of page 0 transferred to page 5 of [doc_fox5]. *)
Lemma transferred_markup_is_near_witness :
  transferred_as source_config doc_fox5 ratio_default 5 0 annot_quick
    (exact_annot annot_quick
       (new_markup annot_quick (page_of doc_fox5 5) fox_quads))
  ∧ na_page (exact_annot annot_quick
               (new_markup annot_quick (page_of doc_fox5 5) fox_quads)) = 5
  ∧ Z.abs (na_page (exact_annot annot_quick
                      (new_markup annot_quick (page_of doc_fox5 5) fox_quads))
           - 0) <= MAX_PAGE_DISTANCE source_config.
Proof.
  assert (H : transferred_as source_config doc_fox5 ratio_default 5 0
                annot_quick
                (exact_annot annot_quick
                   (new_markup annot_quick (page_of doc_fox5 5) fox_quads))).
  { eexists. split; vm_compute; reflexivity. }
  destruct (transferred_markup_is_near _ _ _ _ _ _ _ H)
    as (_ & _ & _ & _ & _ & Hd & _).
  split; [exact H|]. split; [reflexivity|exact Hd].
Defined.

(** ** Accounting *)

Lemma count_cons {A} (f : A → bool) x l :
  count f (x :: l) = ((if f x then 1 else 0) + count f l)%nat.
Proof. unfold count. simpl. by destruct (f x). Qed.

Lemma verdict_unsupported_iff cfg doc fr fa old annot v :
  verdict cfg doc fr fa old annot = Ok v →
  (v = VUnsupported ↔ is_markup annot = false).
Proof.
  intros Hv. unfold is_markup.
  destruct (bool_decide (a_type annot ∈ markup_types)) eqn:Htype.
  - apply bool_decide_eq_true in Htype. split; [|done]. intros ->.
    destruct (decide (target_of annot = "")) as [Hempty|Hne].
    + unfold verdict in Hv. rewrite bool_decide_eq_true_2 in Hv by done.
      rewrite Hempty in Hv. done.
    + by destruct (verdict_of_nonempty_target _ _ _ _ _ _ _ Htype Hne Hv).
  - unfold verdict in Hv. rewrite Htype in Hv. simpl in Hv.
    split; [done|]. intros _. congruence.
Qed.

(** Every step of pass 1 moves exactly one of the four tallies. *)
Lemma run_markups_tally cfg doc fr fa l : ∀ s s',
  run_markups cfg doc fr fa l s = Ok s' →
  (count is_ok_exact (printed s') + transferred_fuzzy_count s'
   + failed_count s'
   = count is_ok_exact (printed s) + transferred_fuzzy_count s
     + failed_count s + count is_markup (map snd l))%nat
  ∧ unsupported_count s'
    = (unsupported_count s + count (fun a => negb (is_markup a)) (map snd l))%nat.
Proof.
  induction l as [|[n a] l IH]; intros s s'; simpl.
  - intros [= <-]. unfold count. simpl. lia.
  - unfold_bind.
    destruct (transfer_markup cfg doc fr fa n a s) as [s1|e] eqn:E; [|done].
    intros Hrun. destruct (IH s1 s' Hrun) as [H1 H2].
    rewrite H1, H2, !count_cons.
    apply transfer_markup_ok in E as (v & Hv & ->).
    pose proof (verdict_unsupported_iff _ _ _ _ _ _ _ Hv) as Hu.
    destruct v; simpl; rewrite ?count_snoc; simpl;
      try (rewrite (proj1 Hu eq_refl); simpl; lia);
      (destruct (is_markup a) eqn:Hm;
         [simpl; lia|discriminate (proj2 Hu eq_refl)]).
Qed.

(** Pass 2 in closed form: the map it starts from decides everything. *)
Lemma run_replies_closed l : ∀ s,
  let m := new_annot_map s in
  let s' := run_replies l s in
  transferred_count s' = (transferred_count s + count (attachable m) l)%nat
  ∧ unsupported_count s' = (unsupported_count s + count (orphan m) l)%nat
  ∧ transferred_fuzzy_count s' = transferred_fuzzy_count s
  ∧ failed_count s' = failed_count s
  ∧ failed_annotations s' = failed_annotations s
  ∧ new_annot_map s' = m
  ∧ output_annots s' = output_annots s ++ omap (note_of m) l
  ∧ count is_ok_reply (printed s')
    = (count is_ok_reply (printed s) + count (attachable m) l)%nat.
Proof.
  induction l as [|a l IH]; intros s m s'.
  - unfold s', count. simpl. rewrite app_nil_r. repeat split; lia.
  - unfold s'.
    change (run_replies (a :: l) s) with (run_replies l (transfer_reply a s)).
    destruct (IH (transfer_reply a s))
      as (H1 & H2 & H3 & H4 & H5 & H6 & H7 & H8).
    rewrite transfer_reply_map in H1, H2, H6, H7, H8. fold m in H1, H2, H6, H7, H8.
    rewrite H1, H2, H3, H4, H5, H6, H7, H8, !count_cons.
    rewrite transfer_reply_cases. unfold attachable, orphan, note_of, is_reply.
    simpl omap.
    destruct (a_type a =? PDF_ANNOT_TEXT); simpl; [|repeat split; lia].
    fold m. destruct (m !! irt_xref a) as [parent|] eqn:Hp; simpl.
    + rewrite ?bool_decide_eq_true_2 by done. simpl.
      rewrite count_snoc, <- app_assoc. simpl. repeat split; lia.
    + rewrite ?bool_decide_eq_false_2 by (by intros [? ?]). simpl.
      repeat split; lia.
Qed.

Lemma count_split {A} (f : A → bool) l :
  (count f l + count (fun a => negb (f a)) l = length l)%nat.
Proof.
  induction l as [|x l IH]; [done|]. rewrite !count_cons. simpl.
  destruct (f x); simpl; lia.
Qed.

Lemma count_reply_split m l :
  (count (attachable m) l + count (orphan m) l = count is_reply l)%nat.
Proof.
  induction l as [|x l IH]; [done|]. rewrite !count_cons.
  assert (Hx : ((if attachable m x then 1 else 0)
                + (if orphan m x then 1 else 0)
                = if is_reply x then 1 else 0)%nat).
  { unfold attachable, orphan.
    destruct (is_reply x); destruct (bool_decide _); simpl; lia. }
  lia.
Qed.



(** X11. What [unsupported_count] counts at the end of a run: every
    annotation that is not a highlight, underline or squiggly (sticky
    notes included, counted by pass 1) and, once more, every sticky note
    whose in-reply-to identifier is not in the transfer map (counted by
    pass 2).  Together the four counters amount to the number of
    annotations plus the number of sticky notes. *)
Theorem unsupported_counts_notes_in_both_passes cfg old_doc new_doc fr fa s :
  transfer_annotations cfg old_doc new_doc fr fa = Ok s →
  let annots := concat old_doc in
  unsupported_count s
  = (count (fun a => negb (is_markup a)) annots
     + count (orphan (new_annot_map s)) annots)%nat
  ∧ count is_reply annots
    = (count is_ok_reply (printed s)
       + count (orphan (new_annot_map s)) annots)%nat
  ∧ (transferred_count s + transferred_fuzzy_count s + failed_count s
     + unsupported_count s
     = length annots + count is_reply annots)%nat.
Proof.
  intros Hrun annots.
  destruct (transfer_annotations_counters _ _ _ _ _ _ Hrun)
    as (_ & Htc & _ & _ & _).
  destruct (transfer_annotations_run _ _ _ _ _ _ Hrun)
    as (s1 & _ & Hr1 & _ & Hr2).
  destruct (run_markups_tally _ _ _ _ _ _ _ Hr1) as [Ht Hu].
  pose proof (pass1_prints_no_reply _ _ _ _ _ _ _ Hr1 eq_refl) as Hnr.
  destruct (run_replies_closed (map snd (indexed_annots old_doc)) s1)
    as (H1 & H2 & H3 & H4 & _ & H6 & _ & H8).
  destruct (pass2_keeps_fuzzy (map snd (indexed_annots old_doc)) s1)
    as [_ Hke].
  rewrite <- Hr2 in H1, H2, H3, H4, H6, H8, Hke.
  unfold indexed_annots in *. rewrite indexed_annots_from_snd in *.
  fold annots in Ht, Hu, H1, H2, H8.
  simpl in Ht, Hu. change (count is_ok_exact []) with 0%nat in Ht.
  rewrite H6.
  pose proof (count_reply_split (new_annot_map s1) annots) as Hsplit.
  pose proof (count_split is_markup annots) as Hall.
  rewrite Hke in Htc.
  repeat split; lia.
Qed.

Lemma unsupported_counts_notes_in_both_passes_witness :
  ∃ s, transfer_annotations source_config old_orphan_reply doc_fox
         ratio_default 5 = Ok s
       ∧ unsupported_count s
         = (count (fun a => negb (is_markup a)) (concat old_orphan_reply)
            + count (orphan (new_annot_map s)) (concat old_orphan_reply))%nat
       ∧ unsupported_count s = 2%nat.
Proof.
  destruct (transfer_annotations source_config old_orphan_reply doc_fox
              ratio_default 5) as [s|e] eqn:E;
    [|vm_compute in E; discriminate E].
  exists s. split; [reflexivity|].
  split; [exact (proj1 (unsupported_counts_notes_in_both_passes _ _ _ _ _ _ E))|].
  vm_compute in E. injection E as <-. reflexivity.
Defined.

(** ** Pass 2 does not depend on the order of the replies *)




(** ** Pages the matcher cannot use *)

Lemma candidates_nil text n pages :
  Forall (fun page => (length (get_words (content page)) < n)%nat) pages →
  candidates text n pages = [].
Proof.
  unfold candidates. induction 1 as [|page pages Hshort _ IH]; [done|].
  simpl. rewrite IH, app_nil_r. unfold page_candidates.
  by destruct (Nat.ltb_spec (length (get_words (content page))) n); [|lia].
Qed.

(** X14. The fuzzy matcher has nothing to compare on a page with fewer
    words than the phrase: when every candidate page is that short, and
    in particular when the candidate list is empty, it returns none
    whatever the ratio and the allowance are, provided the budget can be
    computed; a page with at least as many words has one window per
    starting position. *)
Theorem short_pages_give_no_match doc text ratio base idxs pages a :
  length (PyStr.split text) ≠ 0%nat →
  allowed_distance text ratio base = Ok a →
  load_pages doc idxs = Ok pages →
  (Forall (fun page =>
             (length (get_words (content page))
              < length (PyStr.split text))%nat) pages →
   find_best_fuzzy_match_in_pages doc text ratio base idxs = Ok (None, None))
  ∧ (idxs = [] →
     find_best_fuzzy_match_in_pages doc text ratio base idxs = Ok (None, None))
  ∧ (∀ page,
       (length (PyStr.split text) ≤ length (get_words (content page)))%nat →
       length (page_candidates text (length (PyStr.split text)) page)
       = (length (get_words (content page))
          - length (PyStr.split text) + 1)%nat).
Proof.
  intros Hn Ha Hpages.
  assert (Hshort : Forall (fun page =>
             (length (get_words (content page))
              < length (PyStr.split text))%nat) pages →
   find_best_fuzzy_match_in_pages doc text ratio base idxs = Ok (None, None)).
  { intros H.
    by apply (find_best_no_candidates doc text ratio base idxs pages a);
      [..|apply candidates_nil]. }
  split; [exact Hshort|]. split.
  - intros ->. apply Hshort. simpl in Hpages. injection Hpages as <-.
    constructor.
  - intros page Hlen. unfold page_candidates.
    destruct (Nat.ltb_spec (length (get_words (content page)))
                (length (PyStr.split text))); [lia|].
    by rewrite length_map, length_seq.
Qed.

(** A phrase of five words against pages of at most four. *)
Lemma short_pages_give_no_match_witness :
  (length (PyStr.split "one two three four five") ≠ 0%nat
   ∧ allowed_distance "one two three four five" ratio_default 5 = Ok 11
   ∧ load_pages doc_cats [0; 1] = Ok [page_of doc_cats 0; page_of doc_cats 1]
   ∧ Forall (fun page =>
               (length (get_words (content page))
                < length (PyStr.split "one two three four five"))%nat)
            [page_of doc_cats 0; page_of doc_cats 1])
  ∧ find_best_fuzzy_match_in_pages doc_cats "one two three four five"
      ratio_default 5 [0; 1] = Ok (None, None).
Proof.
  assert (H1 : length (PyStr.split "one two three four five") ≠ 0%nat)
    by (vm_compute; discriminate).
  assert (H2 : allowed_distance "one two three four five" ratio_default 5
               = Ok 11) by (vm_compute; reflexivity).
  assert (H3 : load_pages doc_cats [0; 1]
               = Ok [page_of doc_cats 0; page_of doc_cats 1])
    by (vm_compute; reflexivity).
  assert (H4 : Forall (fun page =>
               (length (get_words (content page))
                < length (PyStr.split "one two three four five"))%nat)
            [page_of doc_cats 0; page_of doc_cats 1])
    by (constructor; [vm_compute; lia|];
        constructor; [vm_compute; lia|]; constructor).
  split; [exact (conj H1 (conj H2 (conj H3 H4)))|].
  exact (proj1 (short_pages_give_no_match doc_cats "one two three four five"
                  ratio_default 5 [0; 1] _ 11 H1 H2 H3) H4).
Defined.

(** ** When a run completes *)



